(** * WebXR session management: a shallow embedding of
      [packages/dev/core/src/XR/webXRSessionManager.ts] and of the class
      [WebXRDefaultExperience] that drives it.

    The TypeScript objects become records, their methods become functions
    in a small state-and-completion monad over a [World] (the manager plus
    the trace of effects it has had on its collaborators), and promises
    become settled completions: one call of an asynchronous method is run
    to its settlement, its callbacks in the order the promise chain fixes. *)

From Stdlib Require Import List String Bool Arith Lia.
From Stdlib Require Import QArith Qcanon.
Import ListNotations.

Set Implicit Arguments.
Local Open Scope string_scope.
Local Open Scope nat_scope.

(* ================================================================== *)
(** * JavaScript values used by the session manager *)
(* ================================================================== *)

Module JS.

(** A JavaScript [number].  Finite doubles are rationals; the code below
    only compares, negates and selects numbers, none of which rounds.
    Signed zero is identified with zero. *)
Inductive number : Type :=
| Finite (q : Qc)
| PosInfinity
| NegInfinity
| NaN.

Definition zero : number := Finite (Q2Qc 0).
Definition one : number := Finite (Q2Qc 1).

(** ToBoolean on a number: [0] and [NaN] are falsy. *)
Definition truthy (v : number) : bool :=
  match v with
  | Finite q => match (q ?= Q2Qc 0)%Qc with Eq => false | _ => true end
  | PosInfinity | NegInfinity => true
  | NaN => false
  end.

(** [a <= b] on finite numbers. *)
Definition Qcleb (a b : Qc) : bool :=
  match (a ?= b)%Qc with Gt => false | _ => true end.

(** [Math.min(a, b)]: [NaN] if either argument is [NaN]. *)
Definition Math_min (a b : number) : number :=
  match a, b with
  | NaN, _ | _, NaN => NaN
  | NegInfinity, _ | _, NegInfinity => NegInfinity
  | PosInfinity, v | v, PosInfinity => v
  | Finite p, Finite q => if Qcleb p q then Finite p else Finite q
  end.

(** [Math.max(a, b)]: [NaN] if either argument is [NaN]. *)
Definition Math_max (a b : number) : number :=
  match a, b with
  | NaN, _ | _, NaN => NaN
  | PosInfinity, _ | _, PosInfinity => PosInfinity
  | NegInfinity, v | v, NegInfinity => v
  | Finite p, Finite q => if Qcleb p q then Finite q else Finite p
  end.

(** Unary minus. *)
Definition neg (v : number) : number :=
  match v with
  | Finite q => Finite (- q)%Qc
  | PosInfinity => NegInfinity
  | NegInfinity => PosInfinity
  | NaN => NaN
  end.

(** [value || 0] for [value : Nullable<number>]. *)
Definition or_zero (value : option number) : number :=
  match value with
  | Some v => if truthy v then v else zero
  | None => zero
  end.

(** [value || null] for [value : Nullable<number>]. *)
Definition or_null (value : option number) : option number :=
  match value with
  | Some v => if truthy v then Some v else None
  | None => None
  end.

(** The settlement of a call: a value (the promise resolved, or the
    synchronous call returned), a rejected promise, or an exception
    thrown synchronously. *)
Inductive completion (A : Type) : Type :=
| Fulfilled (a : A)
| Rejected (reason : string)
| Thrown (reason : string).
Arguments Rejected {A} reason.
Arguments Thrown {A} reason.

(** What a platform promise settles to. *)
Inductive settled (A : Type) : Type :=
| Resolves (a : A)
| Rejects (reason : string).
Arguments Rejects {A} reason.

End JS.
Import JS.

(* ================================================================== *)
(** * The WebXR device API, as the session manager consumes it *)
(* ================================================================== *)

Module XR.

Inductive XRSessionMode : Type := Inline | ImmersiveVR | ImmersiveAR.

Inductive XRReferenceSpaceType : Type :=
| Viewer | Local | LocalFloor | BoundedFloor | Unbounded.

Record XRSessionInit : Type := {
  requiredFeatures : list string;
  optionalFeatures : list string
}.

(** [new XRRigidTransform({ x, y, z })]: a translation, the orientation
    left at its default (identity). *)
Record XRRigidTransform : Type := {
  position_x : number;
  position_y : number;
  position_z : number
}.

(** A reference space is one the device handed out, or one derived from
    another by [getOffsetReferenceSpace]. *)
Inductive XRReferenceSpace : Type :=
| DeviceSpace (type : XRReferenceSpaceType) (handle : nat)
| OffsetSpace (origin : XRReferenceSpace) (offset : XRRigidTransform).

Definition getOffsetReferenceSpace
    (space : XRReferenceSpace) (t : XRRigidTransform) : XRReferenceSpace :=
  OffsetSpace space t.

(** A compositor layer; [layer_fixedFoveation] is [None] on a layer
    without the fixed-foveation capability. *)
Record XRLayer : Type := {
  layer_id : nat;
  layer_fixedFoveation : option number
}.

Record XRFrame : Type := { frame_id : nat }.

Record XRRenderStateInit : Type := {
  baseLayer : option XRLayer;
  depthNear : option number;
  depthFar : option number
}.

(** The device session.  Its answers are not under the manager's control:
    [requestReferenceSpace] is an oracle indexed by the number of
    reference-space requests made before, so that two requests for the
    same type may be answered differently. *)
Record XRSession : Type := {
  session_id : nat;
  requestReferenceSpace : nat -> XRReferenceSpaceType -> settled XRReferenceSpace;
  end_ : settled unit;
  enabledFeatures_ : option (list string)
}.

(** [navigator.xr]. *)
Record XRSystem : Type := {
  native : option bool;
  isSessionSupported : option (XRSessionMode -> settled (option bool));
  supportsSession : option (XRSessionMode -> settled (option bool));
  requestSession : XRSessionMode -> XRSessionInit -> settled XRSession
}.

Record Navigator : Type := { xr : option XRSystem }.

End XR.
Import XR.

(* ================================================================== *)
(** * Collaborators whose sources are not part of this development *)
(* ================================================================== *)

Module Collab.

(** Modelled from the spec: [Observable] (Misc/observable) is not among
    the sources.  A notification is "a single-argument broadcast with
    ordered, synchronous delivery to all current subscribers"; an
    observable is the ordered list of its subscribers, [clear] empties
    it. *)
Definition Observer : Type := nat.
Definition Observable : Type := list Observer.
Definition clear (o : Observable) : Observable := [].

(** Modelled from the spec: the layer wrapper classes
    ([WebXRLayerWrapper], [NativeXRLayerWrapper], [WebXRWebGLLayerWrapper])
    are not among the sources.  A wrapper "owns a single compositor layer
    object"; there are "exactly two variants: native-backed and
    browser-GL-backed"; its capability is the "fixed foveation level
    (0.0-1.0, clamped) when supported, null/unsupported sentinel
    otherwise".  The wrapper is the record of the properties the session
    manager reads and writes. *)
Inductive WrapperVariant : Type := NativeBacked | BrowserGLBacked.

Record WebXRLayerWrapper : Type := {
  variant : WrapperVariant;
  layer : XRLayer;
  wrapper_isFixedFoveationSupported : bool;
  wrapper_fixedFoveation : option number
}.

Definition is_some {A : Type} (o : option A) : bool :=
  match o with Some _ => true | None => false end.

Definition NativeXRLayerWrapper (l : XRLayer) : WebXRLayerWrapper :=
  {| variant := NativeBacked; layer := l;
     wrapper_isFixedFoveationSupported := is_some (layer_fixedFoveation l);
     wrapper_fixedFoveation := layer_fixedFoveation l |}.

Definition WebXRWebGLLayerWrapper (l : XRLayer) : WebXRLayerWrapper :=
  {| variant := BrowserGLBacked; layer := l;
     wrapper_isFixedFoveationSupported := is_some (layer_fixedFoveation l);
     wrapper_fixedFoveation := layer_fixedFoveation l |}.

(** [wrapper.fixedFoveation = val]: a wrapper whose layer has the
    capability keeps the level; any other wrapper ignores the write and
    stays at the unsupported sentinel. *)
Definition write_fixedFoveation
    (val : number) (w : WebXRLayerWrapper) : WebXRLayerWrapper :=
  if wrapper_isFixedFoveationSupported w then
    {| variant := variant w; layer := layer w;
       wrapper_isFixedFoveationSupported := true;
       wrapper_fixedFoveation := Some val |}
  else w.

(** Modelled from the spec: the render-target-texture provider
    ([WebXRLayerRenderTargetTextureProvider]) is not among the sources.
    It is "backed by the chosen layer, and exposes framebuffer dimensions
    for engine configuration". *)
Record Dimensions : Type := { framebufferWidth : nat; framebufferHeight : nat }.

Record Provider : Type := {
  provider_layer : XRLayer;
  provider_variant : WrapperVariant;
  getFramebufferDimensions : option Dimensions
}.

Definition createRenderTargetTextureProvider
    (w : WebXRLayerWrapper) : option Provider :=
  Some {| provider_layer := layer w; provider_variant := variant w;
          getFramebufferDimensions := None |}.

(** Modelled from the spec: the render targets ([NativeXRRenderTarget],
    [WebXRManagedOutputCanvas]) are not among the sources; the manager
    only constructs them and asks them for a compositor layer. *)
Definition Canvas : Type := nat.

Record WebXRManagedOutputCanvasOptions : Type := {
  canvasElement : option Canvas
}.

Inductive WebXRRenderTarget : Type :=
| NativeXRRenderTarget
| WebXRManagedOutputCanvas (options : WebXRManagedOutputCanvasOptions).

(** The part of the host engine the manager touches;
    [customAnimationFrameRequester] is [true] when the XR-driven frame
    requester is installed and [false] for [null]. *)
Record Engine : Type := {
  framebufferDimensionsObject : option Dimensions;
  customAnimationFrameRequester : bool;
  getRenderingCanvas : option Canvas
}.

Definition set_framebufferDimensionsObject
    (v : option Dimensions) (e : Engine) : Engine :=
  {| framebufferDimensionsObject := v;
     customAnimationFrameRequester := customAnimationFrameRequester e;
     getRenderingCanvas := getRenderingCanvas e |}.

Definition set_customAnimationFrameRequester (v : bool) (e : Engine) : Engine :=
  {| framebufferDimensionsObject := framebufferDimensionsObject e;
     customAnimationFrameRequester := v;
     getRenderingCanvas := getRenderingCanvas e |}.

Definition GetDefaults (e : option Engine) : WebXRManagedOutputCanvasOptions :=
  {| canvasElement := None |}.

Definition Scene : Type := nat.

End Collab.
Import Collab.

(* ================================================================== *)
(** * The session manager's state *)
(* ================================================================== *)

Module State.

(** The fields of [class WebXRSessionManager], in the order the class
    declares them.  A field the class leaves unassigned until a method
    sets it ([session], [_referenceSpace], ...) is an [option]. *)
Record WebXRSessionManager : Type := mkManager {
  _referenceSpace : option XRReferenceSpace;
  _baseLayerWrapper : option WebXRLayerWrapper;
  _baseLayerRTTProvider : option Provider;
  _xrNavigator : option Navigator;
  _sessionMode : option XRSessionMode;
  _renderState : option XRRenderStateInit;
  _renderTarget : option WebXRRenderTarget;
  _onEngineDisposedObserver : option Observer;
  engine : option Engine;
  scene : option Scene;
  persistent : bool;
  baseReferenceSpace : option XRReferenceSpace;
  currentFrame : option XRFrame;
  currentTimestamp : number;
  defaultHeightCompensation : number;
  onXRFrameObservable : Observable;
  onXRReferenceSpaceChanged : Observable;
  onXRSessionEnded : Observable;
  onXRSessionInit : Observable;
  onXRSessionMoved : Observable;
  session : option XRSession;
  viewerReferenceSpace : option XRReferenceSpace;
  inXRFrameLoop : bool;
  inXRSession : bool
}.

(** Field assignments [this.f = v]: every other field is kept. *)
Definition set_referenceSpace (v : option XRReferenceSpace) (m : WebXRSessionManager)
    : WebXRSessionManager :=
  mkManager v (_baseLayerWrapper m) (_baseLayerRTTProvider m)
    (_xrNavigator m) (_sessionMode m) (_renderState m) (_renderTarget m)
    (_onEngineDisposedObserver m) (engine m) (scene m) (persistent m)
    (baseReferenceSpace m) (currentFrame m) (currentTimestamp m)
    (defaultHeightCompensation m) (onXRFrameObservable m)
    (onXRReferenceSpaceChanged m) (onXRSessionEnded m) (onXRSessionInit m)
    (onXRSessionMoved m) (session m) (viewerReferenceSpace m)
    (inXRFrameLoop m) (inXRSession m).

Definition set_baseLayerWrapper (v : option WebXRLayerWrapper) (m : WebXRSessionManager)
    : WebXRSessionManager :=
  mkManager (_referenceSpace m) v (_baseLayerRTTProvider m) (_xrNavigator m)
    (_sessionMode m) (_renderState m) (_renderTarget m)
    (_onEngineDisposedObserver m) (engine m) (scene m) (persistent m)
    (baseReferenceSpace m) (currentFrame m) (currentTimestamp m)
    (defaultHeightCompensation m) (onXRFrameObservable m)
    (onXRReferenceSpaceChanged m) (onXRSessionEnded m) (onXRSessionInit m)
    (onXRSessionMoved m) (session m) (viewerReferenceSpace m)
    (inXRFrameLoop m) (inXRSession m).

Definition set_baseLayerRTTProvider (v : option Provider) (m : WebXRSessionManager)
    : WebXRSessionManager :=
  mkManager (_referenceSpace m) (_baseLayerWrapper m) v (_xrNavigator m)
    (_sessionMode m) (_renderState m) (_renderTarget m)
    (_onEngineDisposedObserver m) (engine m) (scene m) (persistent m)
    (baseReferenceSpace m) (currentFrame m) (currentTimestamp m)
    (defaultHeightCompensation m) (onXRFrameObservable m)
    (onXRReferenceSpaceChanged m) (onXRSessionEnded m) (onXRSessionInit m)
    (onXRSessionMoved m) (session m) (viewerReferenceSpace m)
    (inXRFrameLoop m) (inXRSession m).

Definition set_xrNavigator (v : option Navigator) (m : WebXRSessionManager)
    : WebXRSessionManager :=
  mkManager (_referenceSpace m) (_baseLayerWrapper m)
    (_baseLayerRTTProvider m) v (_sessionMode m) (_renderState m)
    (_renderTarget m) (_onEngineDisposedObserver m) (engine m) (scene m)
    (persistent m) (baseReferenceSpace m) (currentFrame m)
    (currentTimestamp m) (defaultHeightCompensation m)
    (onXRFrameObservable m) (onXRReferenceSpaceChanged m)
    (onXRSessionEnded m) (onXRSessionInit m) (onXRSessionMoved m)
    (session m) (viewerReferenceSpace m) (inXRFrameLoop m) (inXRSession m).

Definition set_sessionMode (v : option XRSessionMode) (m : WebXRSessionManager)
    : WebXRSessionManager :=
  mkManager (_referenceSpace m) (_baseLayerWrapper m)
    (_baseLayerRTTProvider m) (_xrNavigator m) v (_renderState m)
    (_renderTarget m) (_onEngineDisposedObserver m) (engine m) (scene m)
    (persistent m) (baseReferenceSpace m) (currentFrame m)
    (currentTimestamp m) (defaultHeightCompensation m)
    (onXRFrameObservable m) (onXRReferenceSpaceChanged m)
    (onXRSessionEnded m) (onXRSessionInit m) (onXRSessionMoved m)
    (session m) (viewerReferenceSpace m) (inXRFrameLoop m) (inXRSession m).

Definition set_renderState (v : option XRRenderStateInit) (m : WebXRSessionManager)
    : WebXRSessionManager :=
  mkManager (_referenceSpace m) (_baseLayerWrapper m)
    (_baseLayerRTTProvider m) (_xrNavigator m) (_sessionMode m) v
    (_renderTarget m) (_onEngineDisposedObserver m) (engine m) (scene m)
    (persistent m) (baseReferenceSpace m) (currentFrame m)
    (currentTimestamp m) (defaultHeightCompensation m)
    (onXRFrameObservable m) (onXRReferenceSpaceChanged m)
    (onXRSessionEnded m) (onXRSessionInit m) (onXRSessionMoved m)
    (session m) (viewerReferenceSpace m) (inXRFrameLoop m) (inXRSession m).

Definition set_renderTarget (v : option WebXRRenderTarget) (m : WebXRSessionManager)
    : WebXRSessionManager :=
  mkManager (_referenceSpace m) (_baseLayerWrapper m)
    (_baseLayerRTTProvider m) (_xrNavigator m) (_sessionMode m)
    (_renderState m) v (_onEngineDisposedObserver m) (engine m) (scene m)
    (persistent m) (baseReferenceSpace m) (currentFrame m)
    (currentTimestamp m) (defaultHeightCompensation m)
    (onXRFrameObservable m) (onXRReferenceSpaceChanged m)
    (onXRSessionEnded m) (onXRSessionInit m) (onXRSessionMoved m)
    (session m) (viewerReferenceSpace m) (inXRFrameLoop m) (inXRSession m).

Definition set_onEngineDisposedObserver (v : option Observer) (m : WebXRSessionManager)
    : WebXRSessionManager :=
  mkManager (_referenceSpace m) (_baseLayerWrapper m)
    (_baseLayerRTTProvider m) (_xrNavigator m) (_sessionMode m)
    (_renderState m) (_renderTarget m) v (engine m) (scene m) (persistent m)
    (baseReferenceSpace m) (currentFrame m) (currentTimestamp m)
    (defaultHeightCompensation m) (onXRFrameObservable m)
    (onXRReferenceSpaceChanged m) (onXRSessionEnded m) (onXRSessionInit m)
    (onXRSessionMoved m) (session m) (viewerReferenceSpace m)
    (inXRFrameLoop m) (inXRSession m).

Definition set_engine (v : option Engine) (m : WebXRSessionManager)
    : WebXRSessionManager :=
  mkManager (_referenceSpace m) (_baseLayerWrapper m)
    (_baseLayerRTTProvider m) (_xrNavigator m) (_sessionMode m)
    (_renderState m) (_renderTarget m) (_onEngineDisposedObserver m) v
    (scene m) (persistent m) (baseReferenceSpace m) (currentFrame m)
    (currentTimestamp m) (defaultHeightCompensation m)
    (onXRFrameObservable m) (onXRReferenceSpaceChanged m)
    (onXRSessionEnded m) (onXRSessionInit m) (onXRSessionMoved m)
    (session m) (viewerReferenceSpace m) (inXRFrameLoop m) (inXRSession m).

Definition set_scene (v : option Scene) (m : WebXRSessionManager)
    : WebXRSessionManager :=
  mkManager (_referenceSpace m) (_baseLayerWrapper m)
    (_baseLayerRTTProvider m) (_xrNavigator m) (_sessionMode m)
    (_renderState m) (_renderTarget m) (_onEngineDisposedObserver m)
    (engine m) v (persistent m) (baseReferenceSpace m) (currentFrame m)
    (currentTimestamp m) (defaultHeightCompensation m)
    (onXRFrameObservable m) (onXRReferenceSpaceChanged m)
    (onXRSessionEnded m) (onXRSessionInit m) (onXRSessionMoved m)
    (session m) (viewerReferenceSpace m) (inXRFrameLoop m) (inXRSession m).

Definition set_persistent (v : bool) (m : WebXRSessionManager)
    : WebXRSessionManager :=
  mkManager (_referenceSpace m) (_baseLayerWrapper m)
    (_baseLayerRTTProvider m) (_xrNavigator m) (_sessionMode m)
    (_renderState m) (_renderTarget m) (_onEngineDisposedObserver m)
    (engine m) (scene m) v (baseReferenceSpace m) (currentFrame m)
    (currentTimestamp m) (defaultHeightCompensation m)
    (onXRFrameObservable m) (onXRReferenceSpaceChanged m)
    (onXRSessionEnded m) (onXRSessionInit m) (onXRSessionMoved m)
    (session m) (viewerReferenceSpace m) (inXRFrameLoop m) (inXRSession m).

Definition set_baseReferenceSpace (v : option XRReferenceSpace) (m : WebXRSessionManager)
    : WebXRSessionManager :=
  mkManager (_referenceSpace m) (_baseLayerWrapper m)
    (_baseLayerRTTProvider m) (_xrNavigator m) (_sessionMode m)
    (_renderState m) (_renderTarget m) (_onEngineDisposedObserver m)
    (engine m) (scene m) (persistent m) v (currentFrame m)
    (currentTimestamp m) (defaultHeightCompensation m)
    (onXRFrameObservable m) (onXRReferenceSpaceChanged m)
    (onXRSessionEnded m) (onXRSessionInit m) (onXRSessionMoved m)
    (session m) (viewerReferenceSpace m) (inXRFrameLoop m) (inXRSession m).

Definition set_currentFrame (v : option XRFrame) (m : WebXRSessionManager)
    : WebXRSessionManager :=
  mkManager (_referenceSpace m) (_baseLayerWrapper m)
    (_baseLayerRTTProvider m) (_xrNavigator m) (_sessionMode m)
    (_renderState m) (_renderTarget m) (_onEngineDisposedObserver m)
    (engine m) (scene m) (persistent m) (baseReferenceSpace m) v
    (currentTimestamp m) (defaultHeightCompensation m)
    (onXRFrameObservable m) (onXRReferenceSpaceChanged m)
    (onXRSessionEnded m) (onXRSessionInit m) (onXRSessionMoved m)
    (session m) (viewerReferenceSpace m) (inXRFrameLoop m) (inXRSession m).

Definition set_currentTimestamp (v : number) (m : WebXRSessionManager)
    : WebXRSessionManager :=
  mkManager (_referenceSpace m) (_baseLayerWrapper m)
    (_baseLayerRTTProvider m) (_xrNavigator m) (_sessionMode m)
    (_renderState m) (_renderTarget m) (_onEngineDisposedObserver m)
    (engine m) (scene m) (persistent m) (baseReferenceSpace m)
    (currentFrame m) v (defaultHeightCompensation m) (onXRFrameObservable m)
    (onXRReferenceSpaceChanged m) (onXRSessionEnded m) (onXRSessionInit m)
    (onXRSessionMoved m) (session m) (viewerReferenceSpace m)
    (inXRFrameLoop m) (inXRSession m).

Definition set_defaultHeightCompensation (v : number) (m : WebXRSessionManager)
    : WebXRSessionManager :=
  mkManager (_referenceSpace m) (_baseLayerWrapper m)
    (_baseLayerRTTProvider m) (_xrNavigator m) (_sessionMode m)
    (_renderState m) (_renderTarget m) (_onEngineDisposedObserver m)
    (engine m) (scene m) (persistent m) (baseReferenceSpace m)
    (currentFrame m) (currentTimestamp m) v (onXRFrameObservable m)
    (onXRReferenceSpaceChanged m) (onXRSessionEnded m) (onXRSessionInit m)
    (onXRSessionMoved m) (session m) (viewerReferenceSpace m)
    (inXRFrameLoop m) (inXRSession m).

Definition set_onXRFrameObservable (v : Observable) (m : WebXRSessionManager)
    : WebXRSessionManager :=
  mkManager (_referenceSpace m) (_baseLayerWrapper m)
    (_baseLayerRTTProvider m) (_xrNavigator m) (_sessionMode m)
    (_renderState m) (_renderTarget m) (_onEngineDisposedObserver m)
    (engine m) (scene m) (persistent m) (baseReferenceSpace m)
    (currentFrame m) (currentTimestamp m) (defaultHeightCompensation m) v
    (onXRReferenceSpaceChanged m) (onXRSessionEnded m) (onXRSessionInit m)
    (onXRSessionMoved m) (session m) (viewerReferenceSpace m)
    (inXRFrameLoop m) (inXRSession m).

Definition set_onXRReferenceSpaceChanged (v : Observable) (m : WebXRSessionManager)
    : WebXRSessionManager :=
  mkManager (_referenceSpace m) (_baseLayerWrapper m)
    (_baseLayerRTTProvider m) (_xrNavigator m) (_sessionMode m)
    (_renderState m) (_renderTarget m) (_onEngineDisposedObserver m)
    (engine m) (scene m) (persistent m) (baseReferenceSpace m)
    (currentFrame m) (currentTimestamp m) (defaultHeightCompensation m)
    (onXRFrameObservable m) v (onXRSessionEnded m) (onXRSessionInit m)
    (onXRSessionMoved m) (session m) (viewerReferenceSpace m)
    (inXRFrameLoop m) (inXRSession m).

Definition set_onXRSessionEnded (v : Observable) (m : WebXRSessionManager)
    : WebXRSessionManager :=
  mkManager (_referenceSpace m) (_baseLayerWrapper m)
    (_baseLayerRTTProvider m) (_xrNavigator m) (_sessionMode m)
    (_renderState m) (_renderTarget m) (_onEngineDisposedObserver m)
    (engine m) (scene m) (persistent m) (baseReferenceSpace m)
    (currentFrame m) (currentTimestamp m) (defaultHeightCompensation m)
    (onXRFrameObservable m) (onXRReferenceSpaceChanged m) v
    (onXRSessionInit m) (onXRSessionMoved m) (session m)
    (viewerReferenceSpace m) (inXRFrameLoop m) (inXRSession m).

Definition set_onXRSessionInit (v : Observable) (m : WebXRSessionManager)
    : WebXRSessionManager :=
  mkManager (_referenceSpace m) (_baseLayerWrapper m)
    (_baseLayerRTTProvider m) (_xrNavigator m) (_sessionMode m)
    (_renderState m) (_renderTarget m) (_onEngineDisposedObserver m)
    (engine m) (scene m) (persistent m) (baseReferenceSpace m)
    (currentFrame m) (currentTimestamp m) (defaultHeightCompensation m)
    (onXRFrameObservable m) (onXRReferenceSpaceChanged m)
    (onXRSessionEnded m) v (onXRSessionMoved m) (session m)
    (viewerReferenceSpace m) (inXRFrameLoop m) (inXRSession m).

Definition set_onXRSessionMoved (v : Observable) (m : WebXRSessionManager)
    : WebXRSessionManager :=
  mkManager (_referenceSpace m) (_baseLayerWrapper m)
    (_baseLayerRTTProvider m) (_xrNavigator m) (_sessionMode m)
    (_renderState m) (_renderTarget m) (_onEngineDisposedObserver m)
    (engine m) (scene m) (persistent m) (baseReferenceSpace m)
    (currentFrame m) (currentTimestamp m) (defaultHeightCompensation m)
    (onXRFrameObservable m) (onXRReferenceSpaceChanged m)
    (onXRSessionEnded m) (onXRSessionInit m) v (session m)
    (viewerReferenceSpace m) (inXRFrameLoop m) (inXRSession m).

Definition set_session (v : option XRSession) (m : WebXRSessionManager)
    : WebXRSessionManager :=
  mkManager (_referenceSpace m) (_baseLayerWrapper m)
    (_baseLayerRTTProvider m) (_xrNavigator m) (_sessionMode m)
    (_renderState m) (_renderTarget m) (_onEngineDisposedObserver m)
    (engine m) (scene m) (persistent m) (baseReferenceSpace m)
    (currentFrame m) (currentTimestamp m) (defaultHeightCompensation m)
    (onXRFrameObservable m) (onXRReferenceSpaceChanged m)
    (onXRSessionEnded m) (onXRSessionInit m) (onXRSessionMoved m) v
    (viewerReferenceSpace m) (inXRFrameLoop m) (inXRSession m).

Definition set_viewerReferenceSpace (v : option XRReferenceSpace) (m : WebXRSessionManager)
    : WebXRSessionManager :=
  mkManager (_referenceSpace m) (_baseLayerWrapper m)
    (_baseLayerRTTProvider m) (_xrNavigator m) (_sessionMode m)
    (_renderState m) (_renderTarget m) (_onEngineDisposedObserver m)
    (engine m) (scene m) (persistent m) (baseReferenceSpace m)
    (currentFrame m) (currentTimestamp m) (defaultHeightCompensation m)
    (onXRFrameObservable m) (onXRReferenceSpaceChanged m)
    (onXRSessionEnded m) (onXRSessionInit m) (onXRSessionMoved m)
    (session m) v (inXRFrameLoop m) (inXRSession m).

Definition set_inXRFrameLoop (v : bool) (m : WebXRSessionManager)
    : WebXRSessionManager :=
  mkManager (_referenceSpace m) (_baseLayerWrapper m)
    (_baseLayerRTTProvider m) (_xrNavigator m) (_sessionMode m)
    (_renderState m) (_renderTarget m) (_onEngineDisposedObserver m)
    (engine m) (scene m) (persistent m) (baseReferenceSpace m)
    (currentFrame m) (currentTimestamp m) (defaultHeightCompensation m)
    (onXRFrameObservable m) (onXRReferenceSpaceChanged m)
    (onXRSessionEnded m) (onXRSessionInit m) (onXRSessionMoved m)
    (session m) (viewerReferenceSpace m) v (inXRSession m).

Definition set_inXRSession (v : bool) (m : WebXRSessionManager)
    : WebXRSessionManager :=
  mkManager (_referenceSpace m) (_baseLayerWrapper m)
    (_baseLayerRTTProvider m) (_xrNavigator m) (_sessionMode m)
    (_renderState m) (_renderTarget m) (_onEngineDisposedObserver m)
    (engine m) (scene m) (persistent m) (baseReferenceSpace m)
    (currentFrame m) (currentTimestamp m) (defaultHeightCompensation m)
    (onXRFrameObservable m) (onXRReferenceSpaceChanged m)
    (onXRSessionEnded m) (onXRSessionInit m) (onXRSessionMoved m)
    (session m) (viewerReferenceSpace m) (inXRFrameLoop m) v.

(** The observables of the manager that are public fields. *)
Inductive ObservableName : Type :=
| OnXRFrame
| OnXRReferenceSpaceChanged
| OnXRSessionEnded
| OnXRSessionInit
| OnXRSessionMoved.

(** [this.<observable>.add(observer)]: the new subscriber comes last. *)
Definition subscribe (n : ObservableName) (o : Observer) (m : WebXRSessionManager)
    : WebXRSessionManager :=
  match n with
  | OnXRFrame => set_onXRFrameObservable (app (onXRFrameObservable m) (cons o nil)) m
  | OnXRReferenceSpaceChanged =>
      set_onXRReferenceSpaceChanged (app (onXRReferenceSpaceChanged m) (cons o nil)) m
  | OnXRSessionEnded => set_onXRSessionEnded (app (onXRSessionEnded m) (cons o nil)) m
  | OnXRSessionInit => set_onXRSessionInit (app (onXRSessionInit m) (cons o nil)) m
  | OnXRSessionMoved => set_onXRSessionMoved (app (onXRSessionMoved m) (cons o nil)) m
  end.

Definition subscribeAll
    (l : list (ObservableName * Observer)) (m : WebXRSessionManager)
    : WebXRSessionManager :=
  fold_left (fun m s => subscribe (fst s) (snd s) m) l m.

End State.
Import State.

(* ================================================================== *)
(** * Worlds, effects and the method monad *)
(* ================================================================== *)

Module Effects.

Inductive LogLevel : Type := LogError | LogWarn | LogInfo.

(** What the manager does to its collaborators.  [Notify*] is one call
    of [notifyObservers] on the observable of that name, with the
    subscribers it is delivered to (in order) and its argument. *)
Inductive Event : Type :=
| Log (level : LogLevel) (message : string)
| NotifyFrame (to : Observable) (frame : XRFrame)
| NotifyReferenceSpaceChanged (to : Observable) (space : option XRReferenceSpace)
| NotifySessionEnded (to : Observable)
| NotifySessionInit (to : Observable) (s : option XRSession)
| NotifySessionMoved (to : Observable) (s : option XRSession)
| RequestSession (mode : XRSessionMode) (init : XRSessionInit)
| IsSessionSupportedCall (mode : XRSessionMode)
| RequestReferenceSpace (s : XRSession) (type : XRReferenceSpaceType)
| SessionEnd (s : XRSession)
| SessionAddEndListener (s : XRSession)
| SessionUpdateRenderState (s : XRSession) (state : XRRenderStateInit)
| InitializeXRLayer (target : WebXRRenderTarget) (s : XRSession)
| ProviderDispose (p : Provider)
| EngineRestoreDefaultFramebuffer
| EngineRenderLoop
| EngineOnDisposeRemove (o : option Observer)
| WindowCancelAnimationFrame.

(** The manager together with its surroundings: the ambient [navigator],
    what a render target answers when asked for a layer, the subscribers
    the constructor of a render target adds to the observables of the
    manager it is given (the render target classes are not among the
    sources, so this is left open), the sessions on which a one-shot
    ["end"] listener of the manager is pending, and the effects so far,
    oldest first, each with the manager's fields as they were when it
    happened (what a synchronously called subscriber sees). *)
Record World : Type := mkWorld {
  manager : WebXRSessionManager;
  navigator : Navigator;
  initializeXRLayerAsync : WebXRRenderTarget -> XRSession -> settled XRLayer;
  constructorSubscriptions : WebXRRenderTarget -> list (ObservableName * Observer);
  endListeners : list nat;
  trace : list (Event * WebXRSessionManager)
}.

Definition with_manager (m : WebXRSessionManager) (w : World) : World :=
  mkWorld m (navigator w) (initializeXRLayerAsync w) (constructorSubscriptions w)
    (endListeners w) (trace w).

Definition with_endListeners (l : list nat) (w : World) : World :=
  mkWorld (manager w) (navigator w) (initializeXRLayerAsync w)
    (constructorSubscriptions w) l (trace w).

Definition with_trace (t : list (Event * WebXRSessionManager)) (w : World) : World :=
  mkWorld (manager w) (navigator w) (initializeXRLayerAsync w)
    (constructorSubscriptions w) (endListeners w) t.

(** A method body over a state [S]: from a state to a completion and
    the state after. *)
Definition St (S A : Type) : Type := S -> completion A * S.

(** The methods of the session manager run over a [World]. *)
Definition M (A : Type) : Type := St World A.

Section Combinators.
Context {S : Type}.

Definition ret {A : Type} (a : A) : St S A := fun w => (Fulfilled a, w).

Definition bind {A B : Type} (m : St S A) (f : A -> St S B) : St S B :=
  fun w =>
    match m w with
    | (Fulfilled a, w') => f a w'
    | (Rejected r, w') => (Rejected r, w')
    | (Thrown r, w') => (Thrown r, w')
    end.

Definition throw {A : Type} (reason : string) : St S A :=
  fun w => (Thrown reason, w).

Definition reject {A : Type} (reason : string) : St S A :=
  fun w => (Rejected reason, w).

(** Code run as a promise callback, or as the body of an [async]
    function: what it throws rejects the promise. *)
Definition in_promise {A : Type} (m : St S A) : St S A :=
  fun w =>
    match m w with
    | (Thrown r, w') => (Rejected r, w')
    | other => other
    end.

(** [p.then(onFulfilled, onRejected)].  An exception thrown while the
    expression [p] itself is evaluated is not caught by either. *)
Definition then2 {A B : Type}
    (p : St S A) (onFulfilled : A -> St S B) (onRejected : string -> St S B)
    : St S B :=
  fun w =>
    match p w with
    | (Fulfilled a, w') => in_promise (onFulfilled a) w'
    | (Rejected r, w') => in_promise (onRejected r) w'
    | (Thrown r, w') => (Thrown r, w')
    end.

(** [p.then(onFulfilled)]. *)
Definition then_ {A B : Type} (p : St S A) (onFulfilled : A -> St S B) : St S B :=
  then2 p onFulfilled reject.

(** [p.catch(onRejected)]. *)
Definition catch {A : Type} (p : St S A) (onRejected : string -> St S A) : St S A :=
  then2 p ret onRejected.

(** A platform promise, awaited. *)
Definition settle {A : Type} (s : settled A) : St S A :=
  match s with
  | Resolves a => ret a
  | Rejects r => reject r
  end.

(** A call whose promise is dropped by the caller: it has its effects,
    its settlement is not looked at. *)
Definition not_awaited {A : Type} (m : St S A) : St S unit :=
  fun w => (Fulfilled tt, snd (m w)).

Definition when (b : bool) (m : St S unit) : St S unit :=
  if b then m else ret tt.

(** [o?.m()] for a method with an effect only. *)
Definition whenSome {A : Type} (o : option A) (m : A -> St S unit) : St S unit :=
  match o with Some a => m a | None => ret tt end.

(** Reading a property of [undefined]. *)
Definition TypeError : string := "TypeError".

(** [this.f.g] where [this.f] may be [undefined]. *)
Definition deref {A : Type} (o : option A) : St S A :=
  match o with Some a => ret a | None => throw TypeError end.

End Combinators.

Definition this : M WebXRSessionManager := fun w => (Fulfilled (manager w), w).

Definition assign (f : WebXRSessionManager -> WebXRSessionManager) : M unit :=
  fun w => (Fulfilled tt, with_manager (f (manager w)) w).

(** [this.engine.f = v] on the engine the manager holds. *)
Definition assign_engine (f : Engine -> Engine) : M unit :=
  assign (fun m => set_engine (option_map f (engine m)) m).

Definition emit (e : Event) : M unit :=
  fun w => (Fulfilled tt, with_trace (trace w ++ [(e, manager w)]) w).

(** The global [navigator]. *)
Definition theNavigator : M Navigator := fun w => (Fulfilled (navigator w), w).

(** The reference-space types requested from the device, in order. *)
Definition requestedTypes (t : list (Event * WebXRSessionManager))
    : list XRReferenceSpaceType :=
  flat_map (fun e => match fst e with
                     | RequestReferenceSpace _ ty => [ty]
                     | _ => []
                     end) t.

(** The number of reference-space requests made so far. *)
Definition requestCount : M nat :=
  fun w => (Fulfilled (List.length (requestedTypes (trace w))), w).

(** The pending one-shot ["end"] listeners, and their replacement. *)
Definition pendingEndListeners : M (list nat) :=
  fun w => (Fulfilled (endListeners w), w).

Definition setEndListeners (l : list nat) : M unit :=
  fun w => (Fulfilled tt, with_endListeners l w).

(** [new NativeXRRenderTarget(this)] and
    [new WebXRManagedOutputCanvas(this, options)]: the constructor is
    handed the manager and subscribes to its observables. *)
Definition construct (target : WebXRRenderTarget) : M WebXRRenderTarget :=
  fun w =>
    (Fulfilled target,
     with_manager (subscribeAll (constructorSubscriptions w target) (manager w)) w).

(** What render target [target] answers when asked for a layer for [s]. *)
Definition layerFor (target : WebXRRenderTarget) (s : XRSession) : M XRLayer :=
  fun w => settle (initializeXRLayerAsync w target s) w.

End Effects.
Import Effects.

Declare Scope method_scope.
Delimit Scope method_scope with method.
Notation "x <- m ;; k" := (bind m (fun x => k))
  (at level 61, m at next level, right associativity) : method_scope.
Notation "m ;; k" := (bind m (fun _ => k))
  (at level 61, right associativity) : method_scope.
Local Open Scope method_scope.

(* ================================================================== *)
(** * The methods of [WebXRSessionManager] *)
(* ================================================================== *)

Module SessionManager.

Definition quote : string := String (Ascii.ascii_of_nat 34) EmptyString.

(** [get referenceSpace()] *)
Definition referenceSpace_get : M (option XRReferenceSpace) :=
  m <- this ;; ret (_referenceSpace m).

(** [set referenceSpace(newReferenceSpace)] *)
Definition referenceSpace_set (newReferenceSpace : option XRReferenceSpace) : M unit :=
  assign (set_referenceSpace newReferenceSpace) ;;
  m <- this ;;
  emit (NotifyReferenceSpaceChanged (onXRReferenceSpaceChanged m) (_referenceSpace m)).

(** [get sessionMode()] *)
Definition sessionMode : M (option XRSessionMode) :=
  m <- this ;; ret (_sessionMode m).

(** [get isNative()]: [this._xrNavigator.xr.native ?? false] *)
Definition isNative : M bool :=
  m <- this ;;
  nav <- deref (_xrNavigator m) ;;
  sys <- deref (xr nav) ;;
  ret (match native sys with Some b => b | None => false end).

(** [get enabledFeatures()]: [this.session?.enabledFeatures ?? null] *)
Definition enabledFeatures : M (option (list string)) :=
  m <- this ;;
  ret (match session m with Some s => enabledFeatures_ s | None => None end).

(** [exitXRAsync()] *)
Definition exitXRAsync : M unit :=
  m <- this ;;
  match session m with
  | Some s =>
      if inXRSession m then
        assign (set_inXRSession false) ;;
        emit (SessionEnd s) ;;
        catch (settle (end_ s))
              (fun _ => emit (Log LogWarn "Could not end XR session."))
      else ret tt
  | None => ret tt
  end.

(** [dispose(all = true)] *)
Definition dispose (all : bool) : M unit :=
  m <- this ;;
  when (inXRSession m && (negb (persistent m) || all))
       (not_awaited exitXRAsync) ;;
  assign (fun m => set_onXRFrameObservable (clear (onXRFrameObservable m)) m) ;;
  assign (fun m => set_onXRReferenceSpaceChanged (clear (onXRReferenceSpaceChanged m)) m) ;;
  assign (fun m => set_onXRSessionInit (clear (onXRSessionInit m)) m) ;;
  m <- this ;;
  when (negb (persistent m) || all)
       (assign (set_renderTarget None) ;;
        assign (set_renderState None) ;;
        whenSome (engine m)
                 (fun _ => emit (EngineOnDisposeRemove (_onEngineDisposedObserver m))) ;;
        assign (fun m => set_onXRSessionEnded (clear (onXRSessionEnded m)) m)).

(** [getWebXRRenderTarget(options?)].  The method writes
    [options.canvasElement] on the object it is given: besides the render
    target it returns that object as the call leaves it (the caller's
    object, or the defaults made here; it is also the object the managed
    canvas keeps). *)
Definition getWebXRRenderTarget
    (options : option WebXRManagedOutputCanvasOptions)
    : M (WebXRRenderTarget * option WebXRManagedOutputCanvasOptions) :=
  m <- this ;;
  nav <- deref (_xrNavigator m) ;;
  sys <- deref (xr nav) ;;
  match native sys with
  | Some true =>
      target <- construct NativeXRRenderTarget ;;
      ret (target, options)
  | _ =>
      let options :=
        match options with Some o => o | None => GetDefaults (engine m) end in
      canvas <-
        match canvasElement options with
        | Some c => ret (Some c)
        | None => e <- deref (engine m) ;; ret (getRenderingCanvas e)
        end ;;
      let options := {| canvasElement := canvas |} in
      target <- construct (WebXRManagedOutputCanvas options) ;;
      ret (target, Some options)
  end.

(** [initializeAsync()] *)
Definition initializeAsync : M unit :=
  nav <- theNavigator ;;
  assign (set_xrNavigator (Some nav)) ;;
  match xr nav with
  | None => reject "WebXR not available"
  | Some _ => ret tt
  end.

(** The ["end"] listener that [initializeSessionAsync] registers. *)
Definition onSessionEnd : M unit :=
  assign (set_inXRSession false) ;;
  m <- this ;;
  emit (NotifySessionEnded (onXRSessionEnded m)) ;;
  whenSome (engine m)
           (fun _ =>
              assign_engine (set_framebufferDimensionsObject None) ;;
              emit EngineRestoreDefaultFramebuffer ;;
              assign_engine (set_customAnimationFrameRequester false) ;;
              emit EngineRenderLoop) ;;
  native <- isNative ;;
  m <- this ;;
  when native (whenSome (_baseLayerRTTProvider m) (fun p => emit (ProviderDispose p))) ;;
  assign (set_baseLayerRTTProvider None) ;;
  assign (set_baseLayerWrapper None).

(** [session.addEventListener("end", listener, { once: true })] *)
Definition addEndListenerOnce (s : XRSession) : M unit :=
  emit (SessionAddEndListener s) ;;
  pending <- pendingEndListeners ;;
  setEndListeners (pending ++ [session_id s]).

(** [initializeSessionAsync(xrSessionMode = "immersive-vr", xrSessionInit = {})] *)
Definition initializeSessionAsync
    (xrSessionMode : XRSessionMode) (xrSessionInit : XRSessionInit)
    : M (option XRSession) :=
  then_ (m <- this ;;
         nav <- deref (_xrNavigator m) ;;
         sys <- deref (xr nav) ;;
         emit (RequestSession xrSessionMode xrSessionInit) ;;
         settle (requestSession sys xrSessionMode xrSessionInit))
        (fun session_ =>
           assign (set_session (Some session_)) ;;
           assign (set_sessionMode (Some xrSessionMode)) ;;
           m <- this ;;
           emit (NotifySessionInit (onXRSessionInit m) (Some session_)) ;;
           assign (set_inXRSession true) ;;
           m <- this ;;
           s <- deref (session m) ;;
           addEndListenerOnce s ;;
           m <- this ;;
           ret (session m)).

Definition default_xrSessionInit : XRSessionInit :=
  {| requiredFeatures := []; optionalFeatures := [] |}.

(** The device fires ["end"] on session [s]: every pending one-shot
    listener on it is removed and run, in registration order; what a
    listener throws does not reach the others. *)
Fixpoint runEndListeners (pending : list nat) (id : nat) : M unit :=
  match pending with
  | [] => ret tt
  | l :: rest =>
      when (Nat.eqb l id) (not_awaited onSessionEnd) ;;
      runEndListeners rest id
  end.

Definition sessionEnds (s : XRSession) : M unit :=
  pending <- pendingEndListeners ;;
  setEndListeners (filter (fun l => negb (Nat.eqb l (session_id s))) pending) ;;
  runEndListeners pending (session_id s).

(** [static IsSessionSupportedAsync(sessionMode)] *)
Definition IsSessionSupportedAsync (sessionMode : XRSessionMode) : M bool :=
  nav <- theNavigator ;;
  match xr nav with
  | None => ret false
  | Some sys =>
      let functionToUse :=
        match isSessionSupported sys with
        | Some f => Some f
        | None => supportsSession sys
        end in
      match functionToUse with
      | None => ret false
      | Some f =>
          catch
            (then_ (emit (IsSessionSupportedCall sessionMode) ;;
                    settle (f sessionMode))
                   (fun result =>
                      let returnValue :=
                        match result with None => true | Some b => b end in
                      ret returnValue))
            (fun e => emit (Log LogWarn e) ;; ret false)
      end
  end.

(** [isSessionSupportedAsync(sessionMode)] *)
Definition isSessionSupportedAsync (sessionMode : XRSessionMode) : M bool :=
  IsSessionSupportedAsync sessionMode.

(** [resetReferenceSpace()] *)
Definition resetReferenceSpace : M unit :=
  m <- this ;; referenceSpace_set (baseReferenceSpace m).

(** The [renderFunction] that [runXRRenderLoop] installs on the engine,
    called by the engine once per device frame. *)
Definition renderFunction (timestamp : number) (xrFrame : option XRFrame) : M unit :=
  m <- this ;;
  if negb (inXRSession m) || negb (is_some (engine m)) then ret tt
  else
    assign (set_currentFrame xrFrame) ;;
    assign (set_currentTimestamp timestamp) ;;
    whenSome xrFrame
      (fun frame =>
         assign (set_inXRFrameLoop true) ;;
         m <- this ;;
         assign_engine
           (set_framebufferDimensionsObject
              (match _baseLayerRTTProvider m with
               | Some p => getFramebufferDimensions p
               | None => None
               end)) ;;
         m <- this ;;
         emit (NotifyFrame (onXRFrameObservable m) frame) ;;
         emit EngineRenderLoop ;;
         assign_engine (set_framebufferDimensionsObject None) ;;
         assign (set_inXRFrameLoop false)).

(** [runXRRenderLoop()]; [hasWindow] is
    [typeof window !== "undefined" && window.cancelAnimationFrame]. *)
Definition runXRRenderLoop (hasWindow : bool) : M unit :=
  m <- this ;;
  if negb (inXRSession m) || negb (is_some (engine m)) then ret tt
  else
    assign_engine (set_customAnimationFrameRequester true) ;;
    assign_engine
      (set_framebufferDimensionsObject
         (match _baseLayerRTTProvider m with
          | Some p => getFramebufferDimensions p
          | None => None
          end)) ;;
    when hasWindow (emit WindowCancelAnimationFrame) ;;
    emit EngineRenderLoop.

(** [this.session.requestReferenceSpace(type)] *)
Definition session_requestReferenceSpace
    (type : XRReferenceSpaceType) : M XRReferenceSpace :=
  m <- this ;;
  s <- deref (session m) ;;
  k <- requestCount ;;
  emit (RequestReferenceSpace s type) ;;
  settle (requestReferenceSpace s k type).

Definition viewer_not_supported : string :=
  "XR initialization failed: required " ++ quote ++ "viewer" ++ quote
    ++ " reference space type not supported.".

(** The first link of the chain in [setReferenceSpaceTypeAsync]: the
    request for the type asked for, with its fallback. *)
Definition negotiateReferenceSpace
    (referenceSpaceType : XRReferenceSpaceType) : M XRReferenceSpace :=
  then2 (session_requestReferenceSpace referenceSpaceType)
    (fun referenceSpace => ret referenceSpace)
    (fun rejectionReason =>
       emit (Log LogError "XR.requestReferenceSpace failed for the following reason: ") ;;
       emit (Log LogError rejectionReason) ;;
       emit (Log LogInfo ("Defaulting to universally-supported " ++ quote ++ "viewer"
                            ++ quote ++ " reference space type.")) ;;
       then2 (session_requestReferenceSpace Viewer)
         (fun referenceSpace =>
            m <- this ;;
            let heightCompensation :=
              {| position_x := zero;
                 position_y := neg (defaultHeightCompensation m);
                 position_z := zero |} in
            ret (getOffsetReferenceSpace referenceSpace heightCompensation))
         (fun rejectionReason =>
            emit (Log LogError rejectionReason) ;;
            throw viewer_not_supported)).

(** [setReferenceSpaceTypeAsync(referenceSpaceType = "local-floor")] *)
Definition setReferenceSpaceTypeAsync
    (referenceSpaceType : XRReferenceSpaceType) : M (option XRReferenceSpace) :=
  then_
    (then_ (negotiateReferenceSpace referenceSpaceType)
       (fun referenceSpace =>
          then_ (session_requestReferenceSpace Viewer)
            (fun viewerReferenceSpace_ =>
               assign (set_viewerReferenceSpace (Some viewerReferenceSpace_)) ;;
               ret referenceSpace)))
    (fun referenceSpace =>
       assign (set_baseReferenceSpace (Some referenceSpace)) ;;
       referenceSpace_set (Some referenceSpace) ;;
       referenceSpace_get).

(** [_setBaseLayerWrapper(baseLayerWrapper)] *)
Definition _setBaseLayerWrapper (baseLayerWrapper : option WebXRLayerWrapper) : M unit :=
  m <- this ;;
  whenSome (_baseLayerRTTProvider m) (fun p => emit (ProviderDispose p)) ;;
  assign (set_baseLayerWrapper baseLayerWrapper) ;;
  m <- this ;;
  assign (set_baseLayerRTTProvider
            (match _baseLayerWrapper m with
             | Some w => createRenderTargetTextureProvider w
             | None => None
             end)).

(** [_getBaseLayerWrapper()] *)
Definition _getBaseLayerWrapper : M (option WebXRLayerWrapper) :=
  m <- this ;; ret (_baseLayerWrapper m).

(** [updateRenderTarget(renderTarget)] *)
Definition updateRenderTarget (renderTarget : WebXRRenderTarget) : M unit :=
  assign (set_renderTarget (Some renderTarget)).

(** [updateRenderState(state)] *)
Definition updateRenderState (state : XRRenderStateInit) : M unit :=
  assign (set_renderState (Some state)) ;;
  whenSome (baseLayer state)
    (fun l =>
       native <- isNative ;;
       _setBaseLayerWrapper
         (Some (if native then NativeXRLayerWrapper l else WebXRWebGLLayerWrapper l))) ;;
  m <- this ;;
  s <- deref (session m) ;;
  emit (SessionUpdateRenderState s state).

(** [WebXRFeatureName.LAYERS] (webXRFeaturesManager is not among the
    sources; the name is the one the WebXR layers module registers). *)
Definition LAYERS : string := "xr-layers".

Definition includes (l : list string) (x : string) : bool :=
  existsb (String.eqb x) l.

(** [moveXRToScene(nextScene, defExperience, hookUp)]; [hookUp] is the
    callback already applied to [defExperience]. *)
Definition moveXRToScene (nextScene : Scene) (hookUp : M unit) : M unit :=
  in_promise
    (assign (set_scene (Some nextScene)) ;;
     m <- this ;;
     match (if inXRSession m then _renderState m else None) with
     | Some _ =>
         when (negb (is_some (_renderTarget m)))
              (renderTarget <- getWebXRRenderTarget None ;;
               updateRenderTarget (fst renderTarget)) ;;
         m <- this ;;
         baseLayer_ <-
           match _renderTarget m with
           | Some target =>
               s <- deref (session m) ;;
               emit (InitializeXRLayer target s) ;;
               l <- layerFor target s ;;
               ret (Some l)
           | None => ret None
           end ;;
         features <- enabledFeatures ;;
         m <- this ;;
         renderState <- deref (_renderState m) ;;
         let renderState :=
           if match features with
              | Some fs => includes fs LAYERS
              | None => false
              end
           then renderState
           else {| baseLayer := baseLayer_;
                   depthNear := depthNear renderState;
                   depthFar := depthFar renderState |} in
         updateRenderState renderState
     | None => ret tt
     end ;;
     hookUp ;;
     m <- this ;;
     emit (NotifySessionMoved (onXRSessionMoved m) (session m)) ;;
     m <- this ;;
     when (inXRSession m)
          (emit (NotifySessionInit (onXRSessionInit m) (session m)))).

(** [get isFixedFoveationSupported()] *)
Definition isFixedFoveationSupported : M bool :=
  m <- this ;;
  ret (match _baseLayerWrapper m with
       | Some w => wrapper_isFixedFoveationSupported w
       | None => false
       end).

(** [get fixedFoveation()] *)
Definition fixedFoveation_get : M (option number) :=
  m <- this ;;
  ret (or_null (match _baseLayerWrapper m with
                | Some w => wrapper_fixedFoveation w
                | None => None
                end)).

(** [set fixedFoveation(value)] *)
Definition fixedFoveation_set (value : option number) : M unit :=
  let val := Math_max zero (Math_min one (or_zero value)) in
  m <- this ;;
  whenSome (_baseLayerWrapper m)
    (fun w => assign (set_baseLayerWrapper (Some (write_fixedFoveation val w)))).

(** [constructor(sceneOrEngine)], with the field initialisers of the
    class.  A scene comes with its engine ([getEngine()]); the scene's
    dispose observable is then given a one-shot subscriber that calls
    [dispose()]. *)
Definition new_WebXRSessionManager
    (sceneOrEngine : (Scene * Engine) + Engine) : WebXRSessionManager :=
  {| _referenceSpace := None;
     _baseLayerWrapper := None;
     _baseLayerRTTProvider := None;
     _xrNavigator := None;
     _sessionMode := None;
     _renderState := None;
     _renderTarget := None;
     _onEngineDisposedObserver := None;
     engine := match sceneOrEngine with
               | inl (_, e) => Some e
               | inr e => Some e
               end;
     scene := match sceneOrEngine with
              | inl (sc, _) => Some sc
              | inr _ => None
              end;
     persistent := match sceneOrEngine with
                   | inl _ => false
                   | inr _ => true
                   end;
     baseReferenceSpace := None;
     currentFrame := None;
     currentTimestamp := Finite (Q2Qc (-1));
     defaultHeightCompensation := Finite (Q2Qc (17 # 10));
     onXRFrameObservable := [];
     onXRReferenceSpaceChanged := [];
     onXRSessionEnded := [];
     onXRSessionInit := [];
     onXRSessionMoved := [];
     session := None;
     viewerReferenceSpace := None;
     inXRFrameLoop := false;
     inXRSession := false |}.

End SessionManager.

(* ================================================================== *)
(** * [WebXRDefaultExperience] *)
(* ================================================================== *)

Module DefaultExperience.

(** The options [_initializeScene], [_addUI] and the two constructors
    branch on; an optional boolean left out reads as [false]. *)
Record WebXRDefaultExperienceOptions : Type := {
  disableDefaultUI : bool;
  disablePointerSelection : bool;
  disableTeleportation : bool;
  disableNearInteraction : bool;
  ignoreNativeCameraTransformation : bool;
  outputCanvasOptions : option WebXRManagedOutputCanvasOptions;
  useStablePlugins : bool;
  renderingGroupId : option nat
}.

Inductive FeatureName : Type :=
| PointerSelectionName | TeleportationName | NearInteractionName.

Inductive Tier : Type := Stable | Latest.

(** Modelled from the spec: [WebXRExperienceHelper] is not among the
    sources.  The orchestrator "disposes base experience" and "asks the
    base experience to migrate its camera/feature-manager to the new
    scene"; what these two calls do to the session manager's world is
    left open. *)
Record WebXRExperienceHelper : Type := {
  helper_dispose : bool -> M unit;
  helper_moveXRToScene : Scene -> M unit
}.

(** [new WebXRInput(sessionManager, camera, { controllerOptions: {
    renderingGroupId }, ... })] *)
Record WebXRInput : Type := { controller_renderingGroupId : option nat }.

(** The fields of [class WebXRDefaultExperience]. *)
Record WebXRDefaultExperience : Type := mkExperience {
  options : WebXRDefaultExperienceOptions;
  persistent : bool;
  baseExperience : option WebXRExperienceHelper;
  enterExitUI : option nat;
  input : option WebXRInput;
  pointerSelection : option (FeatureName * Tier);
  renderTarget : option WebXRRenderTarget;
  teleportation : option (FeatureName * Tier);
  nearInteraction : option (FeatureName * Tier)
}.

(** Calls on the collaborators of the experience. *)
Inductive Call : Type :=
| CameraCompensateOnFirstFrame (v : bool)
| EnableFeature (name : FeatureName) (tier : Tier)
| SetSelectionFeature
| InputDispose
| EnterExitUIDispose
| RenderTargetDispose.

(** The experience, the world of its session manager, and its calls on
    input, UI, features and render target so far, oldest first. *)
Record ExperienceWorld : Type := mkXW {
  experience : WebXRDefaultExperience;
  sessionWorld : World;
  calls : list Call
}.

Definition X (A : Type) : Type := St ExperienceWorld A.

Definition self : X WebXRDefaultExperience :=
  fun xw => (Fulfilled (experience xw), xw).

Definition update (f : WebXRDefaultExperience -> WebXRDefaultExperience) : X unit :=
  fun xw => (Fulfilled tt, mkXW (f (experience xw)) (sessionWorld xw) (calls xw)).

Definition call (c : Call) : X unit :=
  fun xw => (Fulfilled tt, mkXW (experience xw) (sessionWorld xw) (calls xw ++ [c])).

(** A method of the session manager or of the base experience, run on
    the session manager's world. *)
Definition onSession {A : Type} (m : M A) : X A :=
  fun xw =>
    let (c, w') := m (sessionWorld xw) in
    (c, mkXW (experience xw) w' (calls xw)).

Definition set_input (v : option WebXRInput) (e : WebXRDefaultExperience) :=
  mkExperience (options e) (persistent e) (baseExperience e) (enterExitUI e) v
    (pointerSelection e) (renderTarget e) (teleportation e) (nearInteraction e).

Definition set_pointerSelection (v : option (FeatureName * Tier))
    (e : WebXRDefaultExperience) :=
  mkExperience (options e) (persistent e) (baseExperience e) (enterExitUI e) (input e)
    v (renderTarget e) (teleportation e) (nearInteraction e).

Definition set_teleportation (v : option (FeatureName * Tier))
    (e : WebXRDefaultExperience) :=
  mkExperience (options e) (persistent e) (baseExperience e) (enterExitUI e) (input e)
    (pointerSelection e) (renderTarget e) v (nearInteraction e).

Definition set_nearInteraction (v : option (FeatureName * Tier))
    (e : WebXRDefaultExperience) :=
  mkExperience (options e) (persistent e) (baseExperience e) (enterExitUI e) (input e)
    (pointerSelection e) (renderTarget e) (teleportation e) v.

Definition teleport_not_suitable : string :=
  "Teleport option not suitable to define at engine level for persistent mode".

Definition must_be_persistent : string :=
  "DefaultExperience must be instanced with CreatePersistentAsync() to move XR".

(** [featuresManager.enableFeature(name, stable ? "stable" : "latest", options)] *)
Definition enableFeature (name : FeatureName) : X (FeatureName * Tier) :=
  e <- self ;;
  _ <- deref (baseExperience e) ;;
  let tier := if useStablePlugins (options e) then Stable else Latest in
  call (EnableFeature name tier) ;;
  ret (name, tier).

(** [_initializeScene()] *)
Definition _initializeScene : X unit :=
  e <- self ;;
  when (ignoreNativeCameraTransformation (options e))
       (_ <- deref (baseExperience e) ;;
        call (CameraCompensateOnFirstFrame false)) ;;
  _ <- deref (baseExperience e) ;;
  update (set_input
            (Some {| controller_renderingGroupId := renderingGroupId (options e) |})) ;;
  when (negb (disablePointerSelection (options e)))
       (f <- enableFeature PointerSelectionName ;;
        update (set_pointerSelection (Some f)) ;;
        when (negb (disableTeleportation (options e)))
             (e <- self ;;
              (if persistent e then throw teleport_not_suitable else ret tt) ;;
              f <- enableFeature TeleportationName ;;
              update (set_teleportation (Some f)) ;;
              call SetSelectionFeature)) ;;
  when (negb (disableNearInteraction (options e)))
       (f <- enableFeature NearInteractionName ;;
        update (set_nearInteraction (Some f))).

(** [dispose(all = true)] *)
Definition dispose (all : bool) : X unit :=
  e <- self ;;
  let shouldClear := negb (persistent e) || all in
  whenSome (baseExperience e) (fun b => onSession (helper_dispose b all)) ;;
  e <- self ;;
  when (is_some (input e)) (call InputDispose) ;;
  e <- self ;;
  when (is_some (enterExitUI e) && shouldClear) (call EnterExitUIDispose) ;;
  e <- self ;;
  when (is_some (renderTarget e) && shouldClear) (call RenderTargetDispose).

(** [moveXRToScene(nextScene, hookUp)].  The callback [hookUp] receives
    the experience and acts on the session manager's world. *)
Definition moveXRToScene
    (nextScene : Scene) (hookUp : WebXRDefaultExperience -> M unit) : X unit :=
  in_promise
    (e <- self ;;
     (if negb (persistent e) then throw must_be_persistent else ret tt) ;;
     dispose false ;;
     e <- self ;;
     b <- deref (baseExperience e) ;;
     in_promise (onSession (helper_moveXRToScene b nextScene)) ;;
     _initializeScene ;;
     e <- self ;;
     _ <- deref (baseExperience e) ;;
     not_awaited (onSession (SessionManager.moveXRToScene nextScene (hookUp e)))).

(** [new WebXRDefaultExperience()] followed by [result.options = options]. *)
Definition new_WebXRDefaultExperience
    (o : WebXRDefaultExperienceOptions) : WebXRDefaultExperience :=
  {| options := o;
     persistent := false;
     baseExperience := None;
     enterExitUI := None;
     input := None;
     pointerSelection := None;
     renderTarget := None;
     teleportation := None;
     nearInteraction := None |}.

End DefaultExperience.

(* ================================================================== *)
(** * Vocabulary of the properties *)
(* ================================================================== *)

Module Props.
Import SessionManager.

(** The order of the extended reals; [NaN] is not comparable. *)
Definition number_leb (a b : number) : bool :=
  match a, b with
  | NaN, _ | _, NaN => false
  | NegInfinity, _ => true
  | _, PosInfinity => true
  | Finite p, Finite q => Qcleb p q
  | _, _ => false
  end.

(** [max] and [min] of two extended reals, from the order alone. *)
Definition real_max (a b : number) : number := if number_leb a b then b else a.
Definition real_min (a b : number) : number := if number_leb a b then a else b.

(** The level the setter is said to store for the input [v]:
    [max(0, min(1, v))], as the host computes it. *)
Definition claimedLevel (v : number) : number := Math_max zero (Math_min one v).

(** The level the setter hands to the wrapper: [0] for [NaN], [null] and
    [undefined], and otherwise the input brought into [0, 1] by the order
    of the extended reals. *)
Definition clampedLevel (value : option number) : number :=
  match value with
  | Some NaN | None => zero
  | Some v => real_max zero (real_min one v)
  end.

(** The value the manager has written on its layer wrapper, if it has one. *)
Definition storedFoveation (w : World) : option (option number) :=
  option_map wrapper_fixedFoveation (_baseLayerWrapper (manager w)).

(** A wrapper of a layer without the fixed-foveation capability. *)
Definition unsupportedWrapper (wr : WebXRLayerWrapper) : WebXRLayerWrapper :=
  {| variant := variant wr; layer := layer wr;
     wrapper_isFixedFoveationSupported := false;
     wrapper_fixedFoveation := None |}.

Definition withWrapper (o : option WebXRLayerWrapper) (w : World) : World :=
  with_manager (set_baseLayerWrapper o (manager w)) w.

(** The events of a trace, without the snapshots. *)
Definition events (t : list (Event * WebXRSessionManager)) : list Event :=
  map fst t.

(** The argument of the latest reference-space-changed notification in a
    trace, [d] if there is none. *)
Definition lastNotifiedSpace
    (t : list (Event * WebXRSessionManager)) (d : option XRReferenceSpace)
    : option XRReferenceSpace :=
  fold_left (fun acc e => match fst e with
                          | NotifyReferenceSpaceChanged _ sp => sp
                          | _ => acc
                          end) t d.

(** The current reference space is the one last announced. *)
Definition announced (w : World) : Prop :=
  _referenceSpace (manager w) = lastNotifiedSpace (trace w) None.

(** [m] keeps [I], however it completes. *)
Definition preserves {A : Type} (I : World -> Prop) (m : M A) : Prop :=
  forall w, I w -> I (snd (m w)).

(** The function the probe calls: [isSessionSupported || supportsSession]. *)
Definition functionToUse (sys : XRSystem)
    : option (XRSessionMode -> settled (option bool)) :=
  match isSessionSupported sys with
  | Some f => Some f
  | None => supportsSession sys
  end.

(** The world after the effects [es], none of which changes a field. *)
Definition logged (es : list Event) (w : World) : World :=
  with_trace (trace w ++ map (fun e => (e, manager w)) es) w.

(** The height compensation of the fallback. *)
Definition heightCompensation (m : WebXRSessionManager) : XRRigidTransform :=
  {| position_x := zero;
     position_y := neg (defaultHeightCompensation m);
     position_z := zero |}.

(** The effects of a rejected request for [ty] up to and including the
    one request for [viewer] that follows it. *)
Definition fallbackEvents
    (s : XRSession) (ty : XRReferenceSpaceType) (reason : string) : list Event :=
  [ RequestReferenceSpace s ty;
    Log LogError "XR.requestReferenceSpace failed for the following reason: ";
    Log LogError reason;
    Log LogInfo ("Defaulting to universally-supported " ++ quote ++ "viewer"
                   ++ quote ++ " reference space type.");
    RequestReferenceSpace s Viewer ].

(** The fields [setReferenceSpaceTypeAsync] assigns on success. *)
Definition finalized
    (space viewerSpace : XRReferenceSpace) (m : WebXRSessionManager)
    : WebXRSessionManager :=
  set_referenceSpace (Some space)
    (set_baseReferenceSpace (Some space)
       (set_viewerReferenceSpace (Some viewerSpace) m)).

(** [isNative] as a function of the manager's fields, where
    [this._xrNavigator.xr] is there. *)
Definition nativeHost (m : WebXRSessionManager) : bool :=
  match _xrNavigator m with
  | Some nav =>
      match xr nav with
      | Some sys => match native sys with Some b => b | None => false end
      | None => false
      end
  | None => false
  end.

(** A session ends: the user calls [exitXRAsync] and the device then
    fires ["end"], or the device fires ["end"] on its own. *)
Definition endSession (explicitExit : bool) (s : XRSession) : M unit :=
  when explicitExit exitXRAsync ;; sessionEnds s.

(** The calls that reach the manager: its methods and property writes,
    the engine calling the installed [renderFunction], and the device
    firing ["end"] on a session. *)
Inductive Call : Type :=
| WriteReferenceSpace (newReferenceSpace : option XRReferenceSpace)
| WriteFixedFoveation (value : option number)
| CallDispose (all : bool)
| CallExitXRAsync
| CallGetWebXRRenderTarget (options : option WebXRManagedOutputCanvasOptions)
| CallInitializeAsync
| CallInitializeSessionAsync (mode : XRSessionMode) (init : XRSessionInit)
| CallIsSessionSupportedAsync (mode : XRSessionMode)
| CallResetReferenceSpace
| CallRunXRRenderLoop (hasWindow : bool)
| CallSetReferenceSpaceTypeAsync (type : XRReferenceSpaceType)
| CallSetBaseLayerWrapper (wrapper : option WebXRLayerWrapper)
| CallUpdateRenderTarget (target : WebXRRenderTarget)
| CallUpdateRenderState (state : XRRenderStateInit)
| DeviceFrame (timestamp : number) (frame : option XRFrame)
| DeviceEndsSession (s : XRSession).

Definition perform (c : Call) : M unit :=
  match c with
  | WriteReferenceSpace sp => referenceSpace_set sp
  | WriteFixedFoveation v => fixedFoveation_set v
  | CallDispose all => dispose all
  | CallExitXRAsync => exitXRAsync
  | CallGetWebXRRenderTarget o => not_awaited (getWebXRRenderTarget o)
  | CallInitializeAsync => initializeAsync
  | CallInitializeSessionAsync mode init => not_awaited (initializeSessionAsync mode init)
  | CallIsSessionSupportedAsync mode => not_awaited (isSessionSupportedAsync mode)
  | CallResetReferenceSpace => resetReferenceSpace
  | CallRunXRRenderLoop hasWindow => runXRRenderLoop hasWindow
  | CallSetReferenceSpaceTypeAsync ty => not_awaited (setReferenceSpaceTypeAsync ty)
  | CallSetBaseLayerWrapper o => _setBaseLayerWrapper o
  | CallUpdateRenderTarget t => updateRenderTarget t
  | CallUpdateRenderState st => updateRenderState st
  | DeviceFrame timestamp frame => renderFunction timestamp frame
  | DeviceEndsSession s => sessionEnds s
  end.

(** The programs a user of the manager can run: sequences of calls, going
    on whatever a call returns, [moveXRToScene] among them with a
    callback that is such a program itself. *)
Inductive client : M unit -> Prop :=
| client_done : client (ret tt)
| client_call (c : Call) (rest : M unit) :
    client rest -> client (not_awaited (perform c) ;; rest)
| client_move (nextScene : Scene) (hookUp rest : M unit) :
    client hookUp -> client rest ->
    client (not_awaited (moveXRToScene nextScene hookUp) ;; rest).

End Props.
Import Props.

Unset Implicit Arguments.
Local Open Scope list_scope.

(** Unfolds the method monad. *)
Ltac run :=
  unfold bind, then_, catch, then2, in_promise, not_awaited, when, whenSome,
    deref, settle, ret, throw, reject, this, assign, assign_engine, emit,
    theNavigator, requestCount, pendingEndListeners, setEndListeners, layerFor,
    construct;
  cbn [fst snd manager trace endListeners navigator constructorSubscriptions
       with_manager with_trace with_endListeners].


(* ================================================================== *)
(** * Concrete devices and worlds *)
(* ================================================================== *)

Module Scenario.
Import SessionManager.

Definition canvas0 : Canvas := 7.

Definition engine0 : Engine :=
  {| framebufferDimensionsObject := None;
     customAnimationFrameRequester := false;
     getRenderingCanvas := Some canvas0 |}.

Definition init0 : XRSessionInit := default_xrSessionInit.

(** A device that grants every reference space. *)
Definition sessionFloor : XRSession :=
  {| session_id := 1;
     requestReferenceSpace := fun k ty => Resolves (DeviceSpace ty k);
     end_ := Resolves tt;
     enabledFeatures_ := Some [] |}.

(** A device without floor tracking: only [viewer] is granted. *)
Definition sessionViewerOnly : XRSession :=
  {| session_id := 2;
     requestReferenceSpace :=
       fun k ty => match ty with
                   | Viewer => Resolves (DeviceSpace Viewer k)
                   | _ => Rejects "NotSupportedError"
                   end;
     end_ := Resolves tt;
     enabledFeatures_ := Some [] |}.

(** A device that grants no reference space at all. *)
Definition sessionNoSpace : XRSession :=
  {| session_id := 3;
     requestReferenceSpace := fun _ _ => Rejects "NotSupportedError";
     end_ := Resolves tt;
     enabledFeatures_ := None |}.

(** A browser ([native] undefined) and a native host handing out [s]. *)
Definition browserXR (s : XRSession) : XRSystem :=
  {| native := None;
     isSessionSupported := Some (fun _ => Resolves (Some true));
     supportsSession := None;
     requestSession := fun _ _ => Resolves s |}.

Definition nativeXR (s : XRSession) : XRSystem :=
  {| native := Some true;
     isSessionSupported := Some (fun _ => Resolves (Some true));
     supportsSession := None;
     requestSession := fun _ _ => Resolves s |}.

(** A platform whose probe rejects, and one with no probe function. *)
Definition rejectingXR : XRSystem :=
  {| native := None;
     isSessionSupported := Some (fun _ => Rejects "SecurityError");
     supportsSession := None;
     requestSession := fun _ _ => Rejects "NotSupportedError" |}.

Definition probelessXR : XRSystem :=
  {| native := None;
     isSessionSupported := None;
     supportsSession := None;
     requestSession := fun _ _ => Rejects "NotSupportedError" |}.

Definition layer0 : XRLayer :=
  {| layer_id := 11; layer_fixedFoveation := Some zero |}.

(** A managed output canvas subscribes to session-initialized and
    session-ended (it adds and removes its canvas there); the native
    render target subscribes to nothing. *)
Definition canvasSubscribes (target : WebXRRenderTarget)
    : list (ObservableName * Observer) :=
  match target with
  | NativeXRRenderTarget => []
  | WebXRManagedOutputCanvas _ => [(OnXRSessionInit, 51); (OnXRSessionEnded, 52)]
  end.

(** A manager freshly constructed on scene [5], in a world with the
    given [navigator.xr]. *)
Definition freshWorld (sys : option XRSystem) : World :=
  {| manager := new_WebXRSessionManager (inl (5, engine0));
     navigator := {| xr := sys |};
     initializeXRLayerAsync := fun _ _ => Resolves layer0;
     constructorSubscriptions := canvasSubscribes;
     endListeners := [];
     trace := [] |}.

(** The same for a persistent manager, constructed on the engine. *)
Definition freshPersistentWorld (sys : option XRSystem) : World :=
  {| manager := new_WebXRSessionManager (inr engine0);
     navigator := {| xr := sys |};
     initializeXRLayerAsync := fun _ _ => Resolves layer0;
     constructorSubscriptions := canvasSubscribes;
     endListeners := [];
     trace := [] |}.

(** [initializeAsync()] then [initializeSessionAsync()] with the
    defaults. *)
Definition enterXR : M (option XRSession) :=
  initializeAsync ;; initializeSessionAsync ImmersiveVR init0.

Definition inSession (sys : XRSystem) : World :=
  snd (enterXR (freshWorld (Some sys))).

Definition inPersistentSession (sys : XRSystem) : World :=
  snd (enterXR (freshPersistentWorld (Some sys))).

(** In session, with a render state whose base layer is [layer0]. *)
Definition rendering (sys : XRSystem) : World :=
  snd (updateRenderState
         {| baseLayer := Some layer0; depthNear := None; depthFar := None |}
         (inSession sys)).

(** A layer without the fixed-foveation capability, and the manager in
    session with a render state whose base layer it is. *)
Definition layerPlain : XRLayer :=
  {| layer_id := 12; layer_fixedFoveation := None |}.

Definition renderingPlain (sys : XRSystem) : World :=
  snd (updateRenderState
         {| baseLayer := Some layerPlain; depthNear := None; depthFar := None |}
         (inSession sys)).

(** A persistent manager in session, with a render target, a render
    state, and subscribers [21] and [22] on session-ended. *)
Definition persistentRendering (sys : XRSystem) : World :=
  snd ((updateRenderTarget NativeXRRenderTarget ;;
        updateRenderState
          {| baseLayer := Some layer0; depthNear := None; depthFar := None |} ;;
        assign (set_onXRSessionEnded [21; 22]))
         (inPersistentSession sys)).

(** One metre forward of the floor space. *)
Definition stepForward : XRRigidTransform :=
  {| position_x := zero; position_y := zero; position_z := one |}.

(** A user session: enter XR, negotiate a floor space, move the current
    space, migrate to scene [6] with a callback that resets the space. *)
Definition tour : M unit :=
  not_awaited (perform CallInitializeAsync) ;;
  not_awaited (perform (CallInitializeSessionAsync ImmersiveVR init0)) ;;
  not_awaited (perform (CallSetReferenceSpaceTypeAsync LocalFloor)) ;;
  not_awaited (perform (WriteReferenceSpace
                          (Some (OffsetSpace (DeviceSpace LocalFloor 0) stepForward)))) ;;
  not_awaited (moveXRToScene 6 (not_awaited (perform CallResetReferenceSpace) ;; ret tt)) ;;
  ret tt.

(** A single-scene experience, as [CreateAsync] assembles it: not
    persistent, its base experience disposing the session manager along
    with itself. *)
Definition options0 : DefaultExperience.WebXRDefaultExperienceOptions :=
  {| DefaultExperience.disableDefaultUI := false;
     DefaultExperience.disablePointerSelection := false;
     DefaultExperience.disableTeleportation := false;
     DefaultExperience.disableNearInteraction := false;
     DefaultExperience.ignoreNativeCameraTransformation := false;
     DefaultExperience.outputCanvasOptions := None;
     DefaultExperience.useStablePlugins := false;
     DefaultExperience.renderingGroupId := None |}.

Definition helper0 : DefaultExperience.WebXRExperienceHelper :=
  {| DefaultExperience.helper_dispose := fun all => dispose all;
     DefaultExperience.helper_moveXRToScene := fun nextScene => assign (set_scene (Some nextScene)) |}.

Definition singleSceneExperience : DefaultExperience.ExperienceWorld :=
  {| DefaultExperience.experience :=
       {| DefaultExperience.options := options0;
          DefaultExperience.persistent := false;
          DefaultExperience.baseExperience := Some helper0;
          DefaultExperience.enterExitUI := Some 31;
          DefaultExperience.input :=
            Some {| DefaultExperience.controller_renderingGroupId := None |};
          DefaultExperience.pointerSelection :=
            Some (DefaultExperience.PointerSelectionName, DefaultExperience.Latest);
          DefaultExperience.renderTarget :=
            Some (WebXRManagedOutputCanvas {| canvasElement := Some canvas0 |});
          DefaultExperience.teleportation :=
            Some (DefaultExperience.TeleportationName, DefaultExperience.Latest);
          DefaultExperience.nearInteraction :=
            Some (DefaultExperience.NearInteractionName, DefaultExperience.Latest) |};
     DefaultExperience.sessionWorld := rendering (browserXR sessionFloor);
     DefaultExperience.calls := [] |}.

(** A callback that subscribes observer [41] to session-initialized. *)
Definition hookUp0 (_ : DefaultExperience.WebXRDefaultExperience) : M unit :=
  assign (fun m => set_onXRSessionInit (onXRSessionInit m ++ [41]) m).

Definition minus_half : number := Finite (Q2Qc (- 1 # 2)).
Definition three_halves : number := Finite (Q2Qc (3 # 2)).
Definition two_fifths : number := Finite (Q2Qc (2 # 5)).

End Scenario.

(* ================================================================== *)
(** * Vocabulary and worlds of the further properties *)
(* ================================================================== *)

Module Further.
Import SessionManager.

(** A run of writes to the [referenceSpace] property, in order. *)
Fixpoint writeSpaces (spaces : list (option XRReferenceSpace)) : M unit :=
  match spaces with
  | [] => ret tt
  | sp :: rest => referenceSpace_set sp ;; writeSpaces rest
  end.

(** A session whose [end()] promise rejects. *)
Definition sessionStuck : XRSession :=
  {| session_id := 4;
     requestReferenceSpace := fun k ty => Resolves (DeviceSpace ty k);
     end_ := Rejects "InvalidStateError";
     enabledFeatures_ := Some [] |}.


(** A platform of the time before [isSessionSupported]: only
    [supportsSession], whose promise resolves without a value. *)
Definition legacyXR : XRSystem :=
  {| native := None;
     isSessionSupported := None;
     supportsSession := Some (fun _ => Resolves None);
     requestSession := fun _ _ => Rejects "NotSupportedError" |}.

(** A platform with both probes, which disagree. *)
Definition bothProbesXR : XRSystem :=
  {| native := None;
     isSessionSupported := Some (fun _ => Resolves (Some false));
     supportsSession := Some (fun _ => Resolves (Some true));
     requestSession := fun _ _ => Rejects "NotSupportedError" |}.



(** In session with a negotiated floor space. *)
Definition onFloor : World :=
  snd (setReferenceSpaceTypeAsync LocalFloor
         (Scenario.inSession (Scenario.browserXR Scenario.sessionFloor))).


(** A persistent experience with options [o], in a session, before its
    first scene: UI and render target built, no input yet. *)
Definition persistentExperience
    (o : DefaultExperience.WebXRDefaultExperienceOptions)
    : DefaultExperience.ExperienceWorld :=
  {| DefaultExperience.experience :=
       {| DefaultExperience.options := o;
          DefaultExperience.persistent := true;
          DefaultExperience.baseExperience := Some Scenario.helper0;
          DefaultExperience.enterExitUI := Some 32;
          DefaultExperience.input := None;
          DefaultExperience.pointerSelection := None;
          DefaultExperience.renderTarget := Some NativeXRRenderTarget;
          DefaultExperience.teleportation := None;
          DefaultExperience.nearInteraction := None |};
     DefaultExperience.sessionWorld :=
       Scenario.persistentRendering (Scenario.nativeXR Scenario.sessionFloor);
     DefaultExperience.calls := [] |}.


(** The plugin tier the options select. *)
Definition tierOf (o : DefaultExperience.WebXRDefaultExperienceOptions)
    : DefaultExperience.Tier :=
  if DefaultExperience.useStablePlugins o
  then DefaultExperience.Stable else DefaultExperience.Latest.





(** The worlds with the pending listeners [l]. *)
Definition listening (l : list nat) (w : World) : Prop := endListeners w = l.

End Further.
Import Further.

(* ================================================================== *)
(** * Fixed foveation *)
(* ================================================================== *)

Section FixedFoveation.
Import SessionManager.

Lemma Qcleb_le (p q : Qc) : Qcleb p q = true <-> (p <= q)%Qc.
Proof.
  unfold Qcleb. rewrite Qcle_alt.
  destruct (p ?= q)%Qc; split; intros H; try reflexivity; try discriminate.
  exfalso; apply H; reflexivity.
Qed.

Lemma Qcleb_gt (p q : Qc) : Qcleb p q = false <-> (q < p)%Qc.
Proof.
  unfold Qcleb. split.
  - intros H. apply (proj2 (Qcgt_alt p q)).
    destruct (p ?= q)%Qc; try discriminate; reflexivity.
  - intros H. apply (proj1 (Qcgt_alt p q)) in H. rewrite H. reflexivity.
Qed.

Lemma Qcleb_0_1 : Qcleb (Q2Qc 0) (Q2Qc 1) = true.
Proof. reflexivity. Qed.

(** The setter's arithmetic on a number that is not [NaN]. *)
Lemma clamp_real (v : number) :
  v <> NaN ->
  Math_max zero (Math_min one (or_zero (Some v))) = real_max zero (real_min one v).
Proof.
  intros Hv.
  destruct v as [q | | |]; [ | reflexivity | reflexivity | congruence ].
  unfold or_zero, truthy.
  destruct (q ?= Q2Qc 0)%Qc eqn:Hq;
    [ apply Qceq_alt in Hq; subst q; reflexivity | | ];
    unfold Math_min, real_min, one, number_leb;
    destruct (Qcleb (Q2Qc 1) q); reflexivity.
Qed.

Lemma clamp_unit_interval (v : number) :
  number_leb zero v = true -> number_leb v one = true ->
  real_max zero (real_min one v) = v.
Proof.
  destruct v as [q | | |]; try discriminate.
  unfold real_max, real_min, number_leb, zero, one. intros H0 H1.
  destruct (Qcleb (Q2Qc 1) q) eqn:E.
  - apply Qcleb_le in E, H1.
    rewrite (Qcle_antisym _ _ H1 E), Qcleb_0_1. reflexivity.
  - rewrite H0. reflexivity.
Qed.

Lemma clamp_in_unit_interval (v : number) :
  v <> NaN ->
  number_leb zero (real_max zero (real_min one v)) = true /\
  number_leb (real_max zero (real_min one v)) one = true.
Proof.
  intros Hv. destruct v as [q | | |]; try congruence; try (split; reflexivity).
  unfold real_max, real_min, number_leb, zero, one.
  destruct (Qcleb (Q2Qc 1) q) eqn:E.
  - rewrite Qcleb_0_1. split; reflexivity.
  - destruct (Qcleb (Q2Qc 0) q) eqn:E0.
    + split; [exact E0 |]. apply Qcleb_le, Qclt_le_weak, Qcleb_gt, E.
    + split; reflexivity.
Qed.

(** What the setter does to the world: nothing but the write on the
    wrapper, when there is one. *)
Lemma fixedFoveation_set_run (value : option number) (w : World) :
  fixedFoveation_set value w =
  (Fulfilled tt,
   match _baseLayerWrapper (manager w) with
   | Some wr =>
       withWrapper
         (Some (write_fixedFoveation
                  (Math_max zero (Math_min one (or_zero value))) wr)) w
   | None => w
   end).
Proof.
  unfold fixedFoveation_set, bind, this, whenSome.
  destruct (_baseLayerWrapper (manager w)); reflexivity.
Qed.

(** The setter's arithmetic on any input. *)
Lemma clamp_value (value : option number) :
  Math_max zero (Math_min one (or_zero value)) = clampedLevel value.
Proof.
  destruct value as [v |]; [| reflexivity].
  destruct v as [q | | |]; try reflexivity;
    apply clamp_real; discriminate.
Qed.

Lemma clampedLevel_in_unit_interval (value : option number) :
  number_leb zero (clampedLevel value) = true /\
  number_leb (clampedLevel value) one = true.
Proof.
  destruct value as [v |]; [| split; reflexivity].
  destruct v as [q | | |]; try (split; reflexivity).
  apply clamp_in_unit_interval. discriminate.
Qed.

(** On a wrapper with the capability, [NaN], [null] and [undefined] are
    written as [0]. *)
Lemma fixedFoveation_set_not_a_number (w : World) (wr : WebXRLayerWrapper) :
  _baseLayerWrapper (manager w) = Some wr ->
  wrapper_isFixedFoveationSupported wr = true ->
  storedFoveation (snd (fixedFoveation_set (Some NaN) w)) = Some (Some zero) /\
  storedFoveation (snd (fixedFoveation_set None w)) = Some (Some zero).
Proof.
  intros Hw Hs. rewrite !fixedFoveation_set_run, Hw.
  unfold write_fixedFoveation. rewrite Hs. split; reflexivity.
Qed.

(** C7, as claimed, fails in two ways.  On a wrapper with the capability
    the input [NaN] is stored as [0], while [max(0, min(1, NaN))] is
    [NaN]; and a wrapper without the capability stores nothing, whatever
    the input. *)
Lemma fixedFoveation_set_counterexample :
  (let w := Scenario.rendering (Scenario.browserXR Scenario.sessionFloor) in
   is_some (_baseLayerWrapper (manager w)) = true /\
   storedFoveation (snd (fixedFoveation_set (Some NaN) w)) = Some (Some zero) /\
   claimedLevel NaN = NaN /\
   storedFoveation (snd (fixedFoveation_set (Some NaN) w))
     <> Some (Some (claimedLevel NaN))) /\
  (let w := Scenario.renderingPlain (Scenario.browserXR Scenario.sessionFloor) in
   is_some (_baseLayerWrapper (manager w)) = true /\
   storedFoveation (snd (fixedFoveation_set (Some Scenario.two_fifths) w)) = Some None /\
   claimedLevel Scenario.two_fifths = Scenario.two_fifths /\
   storedFoveation (snd (fixedFoveation_set (Some Scenario.two_fifths) w))
     <> Some (Some (claimedLevel Scenario.two_fifths))).
Proof.
  split; vm_compute; repeat split; discriminate.
Qed.

(** C7, amended.  Whatever is written through the fixed-foveation setter
    while a layer wrapper is present, the setter returns and the level it
    hands to the wrapper lies in [0, 1].  A wrapper with the capability
    stores that level: [max(0, min(1, v))] for a number [v] other than
    [NaN], so a value already in [0, 1] is stored unchanged, and [0] for
    [NaN], [null] and [undefined].  A wrapper without the capability
    ignores the write: nothing changes. *)
Theorem fixedFoveation_set_clamps
    (w : World) (wr : WebXRLayerWrapper) (value : option number) :
  _baseLayerWrapper (manager w) = Some wr ->
  let w' := snd (fixedFoveation_set value w) in
  fst (fixedFoveation_set value w) = Fulfilled tt /\
  number_leb zero (clampedLevel value) = true /\
  number_leb (clampedLevel value) one = true /\
  (wrapper_isFixedFoveationSupported wr = true ->
   storedFoveation w' = Some (Some (clampedLevel value)) /\
   (forall v, value = Some v -> v <> NaN ->
      storedFoveation w' = Some (Some (claimedLevel v))) /\
   (forall v, value = Some v ->
      number_leb zero v = true -> number_leb v one = true ->
      storedFoveation w' = Some (Some v))) /\
  (wrapper_isFixedFoveationSupported wr = false -> w' = w).
Proof.
  intros Hw. cbv zeta. rewrite fixedFoveation_set_run, Hw, clamp_value.
  cbn [fst snd].
  split; [reflexivity |].
  split; [apply clampedLevel_in_unit_interval |].
  split; [apply clampedLevel_in_unit_interval |].
  split.
  - intros Hs.
    assert (E : storedFoveation
                  (withWrapper (Some (write_fixedFoveation (clampedLevel value) wr)) w)
                = Some (Some (clampedLevel value))).
    { unfold write_fixedFoveation. rewrite Hs. reflexivity. }
    split; [exact E |]. split.
    + intros v -> Hv. rewrite E. unfold claimedLevel.
      destruct v as [q | | |]; try reflexivity; try congruence.
      cbn [clampedLevel]. unfold real_max, real_min, number_leb, zero, one,
        Math_max, Math_min.
      destruct (Qcleb (Q2Qc 1) q); reflexivity.
    + intros v -> H0 H1. rewrite E.
      destruct v as [q | | |]; try discriminate.
      cbn [clampedLevel]. rewrite clamp_unit_interval by assumption. reflexivity.
  - intros Hs. unfold write_fixedFoveation. rewrite Hs.
    destruct w as [m gnav lay subs pending t]; destruct m.
    cbn in Hw. subst. reflexivity.
Qed.

(** The three inputs of the specification, -0.5, 1.5 and 0.4, then [NaN],
    on a wrapper with the capability; and 0.4 on a wrapper without. *)
Lemma fixedFoveation_set_clamps_witness :
  (let w := Scenario.rendering (Scenario.browserXR Scenario.sessionFloor) in
   storedFoveation (snd (fixedFoveation_set (Some Scenario.minus_half) w))
     = Some (Some zero) /\
   storedFoveation (snd (fixedFoveation_set (Some Scenario.three_halves) w))
     = Some (Some one) /\
   storedFoveation (snd (fixedFoveation_set (Some Scenario.two_fifths) w))
     = Some (Some Scenario.two_fifths) /\
   storedFoveation (snd (fixedFoveation_set (Some NaN) w))
     = Some (Some zero)) /\
  (let w := Scenario.renderingPlain (Scenario.browserXR Scenario.sessionFloor) in
   snd (fixedFoveation_set (Some Scenario.two_fifths) w) = w).
Proof.
  split; [split; [| split; [| split]] |].
  - refine (proj1 (proj1 (proj2 (proj2 (proj2 (fixedFoveation_set_clamps
             (Scenario.rendering (Scenario.browserXR Scenario.sessionFloor))
             (WebXRWebGLLayerWrapper Scenario.layer0)
             (Some Scenario.minus_half) _)))) _));
      vm_compute; reflexivity.
  - refine (proj1 (proj1 (proj2 (proj2 (proj2 (fixedFoveation_set_clamps
             (Scenario.rendering (Scenario.browserXR Scenario.sessionFloor))
             (WebXRWebGLLayerWrapper Scenario.layer0)
             (Some Scenario.three_halves) _)))) _));
      vm_compute; reflexivity.
  - refine (proj2 (proj2 (proj1 (proj2 (proj2 (proj2 (fixedFoveation_set_clamps
             (Scenario.rendering (Scenario.browserXR Scenario.sessionFloor))
             (WebXRWebGLLayerWrapper Scenario.layer0)
             (Some Scenario.two_fifths) _)))) _)) Scenario.two_fifths _ _ _);
      vm_compute; reflexivity.
  - refine (proj1 (proj1 (proj2 (proj2 (proj2 (fixedFoveation_set_clamps
             (Scenario.rendering (Scenario.browserXR Scenario.sessionFloor))
             (WebXRWebGLLayerWrapper Scenario.layer0)
             (Some NaN) _)))) _));
      vm_compute; reflexivity.
  - refine (proj2 (proj2 (proj2 (proj2 (fixedFoveation_set_clamps
             (Scenario.renderingPlain (Scenario.browserXR Scenario.sessionFloor))
             (WebXRWebGLLayerWrapper Scenario.layerPlain)
             (Some Scenario.two_fifths) _)))) _);
      vm_compute; reflexivity.
Defined.

End FixedFoveation.

Section FixedFoveationGetter.
Import SessionManager.

Lemma fixedFoveation_get_run (w : World) :
  fixedFoveation_get w =
  (Fulfilled (or_null (match _baseLayerWrapper (manager w) with
                       | Some wr => wrapper_fixedFoveation wr
                       | None => None
                       end)), w).
Proof. reflexivity. Qed.

(** A stored level other than [0] (and other than [NaN]) is read back. *)
Lemma fixedFoveation_get_nonzero (w : World) (wr : WebXRLayerWrapper) (v : number) :
  _baseLayerWrapper (manager w) = Some wr ->
  wrapper_fixedFoveation wr = Some v ->
  truthy v = true ->
  fixedFoveation_get w = (Fulfilled (Some v), w).
Proof.
  intros Hw Hv Ht. rewrite fixedFoveation_get_run, Hw, Hv.
  unfold or_null. rewrite Ht. reflexivity.
Qed.

(** C10.  With a wrapper that supports fixed foveation and holds the
    level [0], the getter returns [null]: what it returns without a
    wrapper, and with a wrapper that does not support foveation. *)
Theorem fixedFoveation_get_zero_is_null (w : World) (wr : WebXRLayerWrapper) :
  _baseLayerWrapper (manager w) = Some wr ->
  wrapper_isFixedFoveationSupported wr = true ->
  wrapper_fixedFoveation wr = Some zero ->
  fst (fixedFoveation_get w) = Fulfilled None /\
  fst (fixedFoveation_get (withWrapper None w)) = Fulfilled None /\
  fst (fixedFoveation_get (withWrapper (Some (unsupportedWrapper wr)) w))
    = Fulfilled None.
Proof.
  intros Hw _ Hz. rewrite !fixedFoveation_get_run. cbn [fst].
  rewrite Hw, Hz. repeat split.
Qed.

Lemma fixedFoveation_get_zero_is_null_witness :
  fst (fixedFoveation_get
         (Scenario.rendering (Scenario.browserXR Scenario.sessionFloor)))
    = Fulfilled None.
Proof.
  refine (proj1 (fixedFoveation_get_zero_is_null
                   (Scenario.rendering (Scenario.browserXR Scenario.sessionFloor))
                   (WebXRWebGLLayerWrapper Scenario.layer0) _ _ _));
    vm_compute; reflexivity.
Defined.

End FixedFoveationGetter.

(* ================================================================== *)
(** * Disposal *)
(* ================================================================== *)

Section Dispose.
Import SessionManager.

(** [exitXRAsync] never rejects, and touches no field but the
    in-session flag. *)
Lemma exitXRAsync_run (w : World) :
  fst (exitXRAsync w) = Fulfilled tt /\
  manager (snd (exitXRAsync w)) =
    (if is_some (session (manager w)) && inXRSession (manager w)
     then set_inXRSession false (manager w)
     else manager w).
Proof.
  unfold exitXRAsync; run.
  destruct (session (manager w)) as [s |]; [| split; reflexivity].
  destruct (inXRSession (manager w)); [| split; reflexivity].
  destruct (end_ s) as [[] | r]; split; reflexivity.
Qed.


(** The manager after [dispose(all)], field by field. *)
Lemma dispose_manager (all : bool) (w : World) :
  let m := manager w in
  let m' := manager (snd (dispose all w)) in
  onXRFrameObservable m' = [] /\
  onXRReferenceSpaceChanged m' = [] /\
  onXRSessionInit m' = [] /\
  State.persistent m' = State.persistent m /\
  _renderTarget m' =
    (if negb (State.persistent m) || all then None else _renderTarget m) /\
  _renderState m' =
    (if negb (State.persistent m) || all then None else _renderState m) /\
  onXRSessionEnded m' =
    (if negb (State.persistent m) || all then [] else onXRSessionEnded m).
Proof.
  cbv zeta. unfold dispose; run.
  destruct (inXRSession (manager w) && (negb (State.persistent (manager w)) || all));
    cbn [fst snd when];
    [ destruct (exitXRAsync_run w) as [_ ->];
      destruct (is_some (session (manager w)) && inXRSession (manager w)) | ];
    cbn;
    destruct (negb (State.persistent (manager w)) || all); cbn;
    try (destruct (engine (manager w)); cbn);
    repeat split.
Qed.

(** C4.  [dispose(false)] on a persistent manager leaves the render
    target, the render state and the session-ended subscribers as they
    were; [dispose(true)] clears all three on any manager; every
    [dispose] clears the frame, reference-space-changed and
    session-initialized subscriber lists. *)
Theorem dispose_clears (all : bool) (w : World) :
  let m := manager w in
  let m' := manager (snd (dispose all w)) in
  (onXRFrameObservable m' = [] /\
   onXRReferenceSpaceChanged m' = [] /\
   onXRSessionInit m' = []) /\
  (State.persistent m = true -> all = false ->
   _renderTarget m' = _renderTarget m /\
   _renderState m' = _renderState m /\
   onXRSessionEnded m' = onXRSessionEnded m) /\
  (all = true ->
   _renderTarget m' = None /\
   _renderState m' = None /\
   onXRSessionEnded m' = []).
Proof.
  cbv zeta.
  destruct (dispose_manager all w) as (F & R & I & _ & T & S & E).
  split; [repeat split; assumption |].
  split.
  - intros Hp Ha. rewrite T, S, E, Hp, Ha. repeat split.
  - intros Ha. rewrite T, S, E, Ha, orb_true_r. repeat split.
Qed.

End Dispose.

Section DisposeWitness.
Import SessionManager.

Lemma dispose_clears_witness :
  let w := Scenario.persistentRendering (Scenario.nativeXR Scenario.sessionFloor) in
  (_renderTarget (manager (snd (dispose false w))) = _renderTarget (manager w) /\
   _renderState (manager (snd (dispose false w))) = _renderState (manager w) /\
   onXRSessionEnded (manager (snd (dispose false w))) = onXRSessionEnded (manager w)) /\
  (_renderTarget (manager (snd (dispose true w))) = None /\
   _renderState (manager (snd (dispose true w))) = None /\
   onXRSessionEnded (manager (snd (dispose true w))) = []).
Proof.
  split.
  - refine (proj1 (proj2 (dispose_clears false _)) _ _); vm_compute; reflexivity.
  - refine (proj2 (proj2 (dispose_clears true _)) _); reflexivity.
Defined.

End DisposeWitness.

(* ================================================================== *)
(** * Probing for session support *)
(* ================================================================== *)

Section Probe.
Import SessionManager.

(** The settlement of the probe, case by case. *)
Lemma IsSessionSupportedAsync_result (mode : XRSessionMode) (w : World) :
  fst (IsSessionSupportedAsync mode w) =
  Fulfilled
    match xr (navigator w) with
    | None => false
    | Some sys =>
        match functionToUse sys with
        | None => false
        | Some f =>
            match f mode with
            | Resolves (Some b) => b
            | Resolves None => true
            | Rejects _ => false
            end
        end
    end.
Proof.
  unfold IsSessionSupportedAsync, functionToUse, bind at 1, theNavigator.
  destruct (xr (navigator w)) as [sys |]; [| reflexivity].
  destruct (isSessionSupported sys) as [f |]; [| destruct (supportsSession sys) as [f |]];
    try reflexivity; run; destruct (f mode) as [[b |] | r]; reflexivity.
Qed.

(** C6.  [isSessionSupportedAsync(mode)] always resolves to a boolean:
    to [false] when [navigator.xr] is absent, when [navigator.xr] has
    neither [isSessionSupported] nor [supportsSession], and when the
    probing call rejects. *)
Theorem isSessionSupportedAsync_never_rejects (mode : XRSessionMode) (w : World) :
  (exists b : bool, fst (isSessionSupportedAsync mode w) = Fulfilled b) /\
  (xr (navigator w) = None ->
   fst (isSessionSupportedAsync mode w) = Fulfilled false) /\
  (forall sys, xr (navigator w) = Some sys ->
     isSessionSupported sys = None -> supportsSession sys = None ->
     fst (isSessionSupportedAsync mode w) = Fulfilled false) /\
  (forall sys f reason, xr (navigator w) = Some sys ->
     functionToUse sys = Some f -> f mode = Rejects reason ->
     fst (isSessionSupportedAsync mode w) = Fulfilled false).
Proof.
  unfold isSessionSupportedAsync. rewrite IsSessionSupportedAsync_result.
  split; [eexists; reflexivity |].
  split; [intros ->; reflexivity |].
  split.
  - intros sys -> Hi Hs. unfold functionToUse. rewrite Hi, Hs. reflexivity.
  - intros sys f reason -> -> ->. reflexivity.
Qed.

Lemma isSessionSupportedAsync_never_rejects_witness :
  fst (isSessionSupportedAsync ImmersiveVR (Scenario.freshWorld None))
    = Fulfilled false /\
  fst (isSessionSupportedAsync ImmersiveVR
         (Scenario.freshWorld (Some Scenario.probelessXR)))
    = Fulfilled false /\
  fst (isSessionSupportedAsync ImmersiveAR
         (Scenario.freshWorld (Some Scenario.rejectingXR)))
    = Fulfilled false.
Proof.
  split; [| split].
  - refine (proj1 (proj2 (isSessionSupportedAsync_never_rejects _ _)) _).
    reflexivity.
  - refine (proj1 (proj2 (proj2 (isSessionSupportedAsync_never_rejects _ _)))
              Scenario.probelessXR _ _ _); reflexivity.
  - refine (proj2 (proj2 (proj2 (isSessionSupportedAsync_never_rejects _ _)))
              Scenario.rejectingXR (fun _ => Rejects "SecurityError")
              "SecurityError" _ _ _); reflexivity.
Defined.

End Probe.

(* ================================================================== *)
(** * Writes to the reference space *)
(* ================================================================== *)

Section Preservation.
Import SessionManager.
Context {A : Type} (I : World -> Prop).

Lemma preserves_ret (a : A) : preserves I (ret a).
Proof. intros w H. exact H. Qed.

Lemma preserves_throw (r : string) : preserves I (@throw World A r).
Proof. intros w H. exact H. Qed.

Lemma preserves_reject (r : string) : preserves I (@reject World A r).
Proof. intros w H. exact H. Qed.

Lemma preserves_settle (s : settled A) : preserves I (settle s).
Proof. destruct s; intros w H; exact H. Qed.

Lemma preserves_deref (o : option A) : preserves I (deref o).
Proof. destruct o; intros w H; exact H. Qed.

Lemma preserves_in_promise (m : M A) : preserves I m -> preserves I (in_promise m).
Proof.
  intros Hm w H. specialize (Hm w H). unfold in_promise.
  destruct (m w) as [[a | r | r] w']; exact Hm.
Qed.

Lemma preserves_not_awaited (m : M A) : preserves I m -> preserves I (not_awaited m).
Proof. intros Hm w H. exact (Hm w H). Qed.

End Preservation.

Section PreservationBind.
Import SessionManager.
Context {A B : Type} (I : World -> Prop).

Lemma preserves_bind (m : M A) (f : A -> M B) :
  preserves I m -> (forall a, preserves I (f a)) -> preserves I (bind m f).
Proof.
  intros Hm Hf w H. specialize (Hm w H). unfold bind.
  destruct (m w) as [[a | r | r] w']; cbn [snd] in *; [apply Hf |..]; exact Hm.
Qed.

Lemma preserves_then2 (p : M A) (f : A -> M B) (g : string -> M B) :
  preserves I p -> (forall a, preserves I (f a)) -> (forall r, preserves I (g r)) ->
  preserves I (then2 p f g).
Proof.
  intros Hp Hf Hg w H. specialize (Hp w H). unfold then2.
  destruct (p w) as [[a | r | r] w']; cbn [snd] in *;
    [apply preserves_in_promise; [apply Hf | exact Hp]
    |apply preserves_in_promise; [apply Hg | exact Hp]
    |exact Hp].
Qed.

Lemma preserves_then (p : M A) (f : A -> M B) :
  preserves I p -> (forall a, preserves I (f a)) -> preserves I (then_ p f).
Proof.
  intros Hp Hf. apply preserves_then2; [exact Hp | exact Hf |].
  intros r. apply preserves_reject.
Qed.

End PreservationBind.

Section PreservationMore.
Import SessionManager.
Context (I : World -> Prop).

Lemma preserves_catch {A : Type} (p : M A) (g : string -> M A) :
  preserves I p -> (forall r, preserves I (g r)) -> preserves I (catch p g).
Proof.
  intros Hp Hg. apply preserves_then2; [exact Hp | | exact Hg].
  intros a. apply preserves_ret.
Qed.

Lemma preserves_when (b : bool) (m : M unit) :
  preserves I m -> preserves I (when b m).
Proof. destruct b; [trivial | intros _; apply preserves_ret]. Qed.

Lemma preserves_whenSome {A : Type} (o : option A) (m : A -> M unit) :
  (forall a, preserves I (m a)) -> preserves I (whenSome o m).
Proof. destruct o; intros H; [apply H | apply preserves_ret]. Qed.

Lemma preserves_this : preserves I this.
Proof. intros w H. exact H. Qed.

End PreservationMore.

Create HintDb announced_db.

Section Announced.
Import SessionManager.

Lemma lastNotifiedSpace_snoc t d e m :
  lastNotifiedSpace (t ++ [(e, m)]) d =
  match e with
  | NotifyReferenceSpaceChanged _ sp => sp
  | _ => lastNotifiedSpace t d
  end.
Proof.
  unfold lastNotifiedSpace. rewrite fold_left_app. cbn [fold_left fst].
  destruct e; reflexivity.
Qed.

Lemma announced_assign (f : WebXRSessionManager -> WebXRSessionManager) :
  (forall m, _referenceSpace (f m) = _referenceSpace m) ->
  preserves announced (assign f).
Proof. intros Hf w H. unfold announced in *. cbn. rewrite Hf. exact H. Qed.

Lemma announced_assign_engine (f : Engine -> Engine) :
  preserves announced (assign_engine f).
Proof. apply announced_assign. reflexivity. Qed.

Lemma announced_emit (e : Event) :
  (forall to sp, e <> NotifyReferenceSpaceChanged to sp) ->
  preserves announced (emit e).
Proof.
  intros He w H. unfold announced in *. cbn.
  rewrite lastNotifiedSpace_snoc.
  destruct e; try exact H. exfalso. eapply He. reflexivity.
Qed.

Lemma announced_theNavigator : preserves announced theNavigator.
Proof. intros w H. exact H. Qed.

Lemma announced_requestCount : preserves announced requestCount.
Proof. intros w H. exact H. Qed.

Lemma announced_pendingEndListeners : preserves announced pendingEndListeners.
Proof. intros w H. exact H. Qed.

Lemma announced_setEndListeners l : preserves announced (setEndListeners l).
Proof. intros w H. exact H. Qed.

Lemma subscribeAll_referenceSpace l m :
  _referenceSpace (subscribeAll l m) = _referenceSpace m.
Proof.
  revert m. induction l as [| [n o] l IH]; intros m; [reflexivity |].
  cbn [subscribeAll fold_left fst snd]. fold (subscribeAll l (subscribe n o m)).
  rewrite IH. destruct n; reflexivity.
Qed.

Lemma announced_construct target : preserves announced (construct target).
Proof.
  intros w H. unfold announced, construct in *. cbn.
  rewrite subscribeAll_referenceSpace. exact H.
Qed.

Lemma announced_layerFor target s : preserves announced (layerFor target s).
Proof.
  intros w H. unfold layerFor.
  destruct (initializeXRLayerAsync w target s); exact H.
Qed.

(** The property setter is the one place that assigns [_referenceSpace],
    and it announces what it assigns. *)
Lemma announced_referenceSpace_set sp : preserves announced (referenceSpace_set sp).
Proof.
  intros w _. unfold announced, referenceSpace_set. run.
  rewrite lastNotifiedSpace_snoc. reflexivity.
Qed.

End Announced.

#[export] Hint Resolve announced_theNavigator announced_requestCount
  announced_pendingEndListeners announced_setEndListeners announced_layerFor
  announced_construct
  announced_referenceSpace_set announced_assign_engine : announced_db.

(** One step through a method body, for the invariant [announced]. *)
Ltac pres_step :=
  match goal with
  | |- preserves _ (bind _ _) => apply preserves_bind; [| intros ?]
  | |- preserves _ (then2 _ _ _) => apply preserves_then2; [| intros ? | intros ?]
  | |- preserves _ (then_ _ _) => apply preserves_then; [| intros ?]
  | |- preserves _ (catch _ _) => apply preserves_catch; [| intros ?]
  | |- preserves _ (in_promise _) => apply preserves_in_promise
  | |- preserves _ (not_awaited _) => apply preserves_not_awaited
  | |- preserves _ (when _ _) => apply preserves_when
  | |- preserves _ (whenSome _ _) => apply preserves_whenSome; intros ?
  | |- preserves _ (ret _) => apply preserves_ret
  | |- preserves _ (throw _) => apply preserves_throw
  | |- preserves _ (reject _) => apply preserves_reject
  | |- preserves _ (settle _) => apply preserves_settle
  | |- preserves _ (deref _) => apply preserves_deref
  | |- preserves _ this => apply preserves_this
  | |- preserves _ (assign _) => apply announced_assign; intros ?; reflexivity
  | |- preserves _ (emit _) => apply announced_emit; intros; discriminate
  | |- preserves _ (match ?x with _ => _ end) => destruct x
  | |- preserves _ _ => solve [auto with announced_db]
  end.

Ltac pres := cbv zeta; repeat (pres_step; cbv beta zeta).

Section AnnouncedMethods.
Import SessionManager.

Lemma announced_isNative : preserves announced isNative.
Proof. unfold isNative. pres. Qed.

Lemma announced_enabledFeatures : preserves announced enabledFeatures.
Proof. unfold enabledFeatures. pres. Qed.

Lemma announced_exitXRAsync : preserves announced exitXRAsync.
Proof. unfold exitXRAsync. pres. Qed.

Hint Resolve announced_isNative announced_enabledFeatures announced_exitXRAsync
  : announced_db.

Lemma announced_dispose all : preserves announced (dispose all).
Proof. unfold dispose. pres. Qed.

Lemma announced_getWebXRRenderTarget o : preserves announced (getWebXRRenderTarget o).
Proof. unfold getWebXRRenderTarget. pres. Qed.

Lemma announced_initializeAsync : preserves announced initializeAsync.
Proof. unfold initializeAsync. pres. Qed.

Lemma announced_onSessionEnd : preserves announced onSessionEnd.
Proof. unfold onSessionEnd. pres. Qed.

Lemma announced_addEndListenerOnce s : preserves announced (addEndListenerOnce s).
Proof. unfold addEndListenerOnce. pres. Qed.

Hint Resolve announced_dispose announced_getWebXRRenderTarget
  announced_initializeAsync announced_onSessionEnd announced_addEndListenerOnce
  : announced_db.

Lemma announced_initializeSessionAsync mode init :
  preserves announced (initializeSessionAsync mode init).
Proof. unfold initializeSessionAsync. pres. Qed.

Lemma announced_runEndListeners pending id :
  preserves announced (runEndListeners pending id).
Proof. induction pending as [| l rest IH]; cbn [runEndListeners]; pres. Qed.

Hint Resolve announced_runEndListeners : announced_db.

Lemma announced_sessionEnds s : preserves announced (sessionEnds s).
Proof. unfold sessionEnds. pres. Qed.

Lemma announced_isSessionSupportedAsync mode :
  preserves announced (isSessionSupportedAsync mode).
Proof. unfold isSessionSupportedAsync, IsSessionSupportedAsync. pres. Qed.

Lemma announced_resetReferenceSpace : preserves announced resetReferenceSpace.
Proof. unfold resetReferenceSpace. pres. Qed.

Lemma announced_renderFunction timestamp frame :
  preserves announced (renderFunction timestamp frame).
Proof. unfold renderFunction. pres. Qed.

Lemma announced_runXRRenderLoop hasWindow :
  preserves announced (runXRRenderLoop hasWindow).
Proof. unfold runXRRenderLoop. pres. Qed.

Lemma announced_session_requestReferenceSpace ty :
  preserves announced (session_requestReferenceSpace ty).
Proof. unfold session_requestReferenceSpace. pres. Qed.

Hint Resolve announced_session_requestReferenceSpace : announced_db.

Lemma announced_negotiateReferenceSpace ty :
  preserves announced (negotiateReferenceSpace ty).
Proof. unfold negotiateReferenceSpace. pres. Qed.

Hint Resolve announced_negotiateReferenceSpace : announced_db.

Lemma announced_setReferenceSpaceTypeAsync ty :
  preserves announced (setReferenceSpaceTypeAsync ty).
Proof. unfold setReferenceSpaceTypeAsync, referenceSpace_get. pres. Qed.

Lemma announced__setBaseLayerWrapper o : preserves announced (_setBaseLayerWrapper o).
Proof. unfold _setBaseLayerWrapper. pres. Qed.

Hint Resolve announced__setBaseLayerWrapper : announced_db.

Lemma announced_updateRenderTarget t : preserves announced (updateRenderTarget t).
Proof. unfold updateRenderTarget. pres. Qed.

Lemma announced_updateRenderState st : preserves announced (updateRenderState st).
Proof. unfold updateRenderState. pres. Qed.

Lemma announced_fixedFoveation_set v : preserves announced (fixedFoveation_set v).
Proof. unfold fixedFoveation_set. pres. Qed.

Hint Resolve announced_updateRenderTarget announced_updateRenderState
  announced_getWebXRRenderTarget : announced_db.

Lemma announced_moveXRToScene nextScene hookUp :
  preserves announced hookUp ->
  preserves announced (moveXRToScene nextScene hookUp).
Proof. intros H. unfold moveXRToScene. pres. Qed.

Lemma announced_perform c : preserves announced (perform c).
Proof.
  destruct c; cbn [perform]; try apply preserves_not_awaited;
    auto using announced_initializeSessionAsync, announced_sessionEnds,
      announced_isSessionSupportedAsync, announced_resetReferenceSpace,
      announced_renderFunction, announced_runXRRenderLoop,
      announced_setReferenceSpaceTypeAsync, announced_fixedFoveation_set
      with announced_db.
Qed.

End AnnouncedMethods.

Section ReferenceSpaceWrites.
Import SessionManager.

Lemma announced_client (p : M unit) : client p -> preserves announced p.
Proof.
  induction 1 as [| c rest _ IH | nextScene hookUp rest _ IHh _ IHr].
  - apply preserves_ret.
  - apply preserves_bind; [| intros _; exact IH].
    apply preserves_not_awaited, announced_perform.
  - apply preserves_bind; [| intros _; exact IHr].
    apply preserves_not_awaited, announced_moveXRToScene, IHh.
Qed.

(** C5.  A write to the [referenceSpace] property stores the space
    written and notifies the reference-space-changed subscribers with that
    space; and whatever a user of the manager calls, the current reference
    space stays the one last notified: no write goes unannounced. *)
Theorem referenceSpace_write_notifies :
  (forall (sp : option XRReferenceSpace) (w : World),
     let w' := snd (referenceSpace_set sp w) in
     fst (referenceSpace_set sp w) = Fulfilled tt /\
     _referenceSpace (manager w') = sp /\
     trace w' =
       trace w ++
       [(NotifyReferenceSpaceChanged (onXRReferenceSpaceChanged (manager w)) sp,
         manager w')]) /\
  (forall (p : M unit) (w : World),
     client p -> announced w -> announced (snd (p w))).
Proof.
  split.
  - intros sp w. cbv zeta. repeat split.
  - intros p w Hp. apply announced_client, Hp.
Qed.

Lemma referenceSpace_write_notifies_witness :
  announced (snd (Scenario.tour
                    (Scenario.freshPersistentWorld
                       (Some (Scenario.browserXR Scenario.sessionFloor))))).
Proof.
  refine (proj2 referenceSpace_write_notifies Scenario.tour _ _ _).
  - unfold Scenario.tour. repeat constructor.
  - reflexivity.
Defined.

End ReferenceSpaceWrites.

(* ================================================================== *)
(** * Negotiating the reference space *)
(* ================================================================== *)

Section ReferenceSpaceNegotiation.
Import SessionManager.

Lemma requestedTypes_app t u :
  requestedTypes (t ++ u) = requestedTypes t ++ requestedTypes u.
Proof. apply flat_map_app. Qed.

Lemma logged_logged es es' w : logged es' (logged es w) = logged (es ++ es') w.
Proof.
  unfold logged, with_trace. cbn. rewrite map_app, app_assoc. reflexivity.
Qed.

Lemma emit_logged e w : emit e w = (Fulfilled tt, logged [e] w).
Proof. reflexivity. Qed.

(** One request to the device: the event, and the device's answer. *)
Lemma session_requestReferenceSpace_run ty w s :
  session (manager w) = Some s ->
  session_requestReferenceSpace ty w =
  (match requestReferenceSpace s (List.length (requestedTypes (trace w))) ty with
   | Resolves sp => Fulfilled sp
   | Rejects r => Rejected r
   end,
   logged [RequestReferenceSpace s ty] w).
Proof.
  intros Hs. unfold session_requestReferenceSpace. run. rewrite Hs. cbn.
  destruct (requestReferenceSpace s _ ty); reflexivity.
Qed.

Lemma requestCount_logged es w :
  List.length (requestedTypes (trace (logged es w))) =
  List.length (requestedTypes (trace w))
  + List.length (requestedTypes (map (fun e => (e, manager w)) es)).
Proof. unfold logged. cbn. rewrite requestedTypes_app, length_app. reflexivity. Qed.

(** The first link of the chain, case by case on the device's answers. *)
Lemma negotiateReferenceSpace_run ty w s :
  session (manager w) = Some s ->
  negotiateReferenceSpace ty w =
  let k := List.length (requestedTypes (trace w)) in
  match requestReferenceSpace s k ty with
  | Resolves sp => (Fulfilled sp, logged [RequestReferenceSpace s ty] w)
  | Rejects reason =>
      match requestReferenceSpace s (S k) Viewer with
      | Resolves v =>
          (Fulfilled (OffsetSpace v (heightCompensation (manager w))),
           logged (fallbackEvents s ty reason) w)
      | Rejects reason' =>
          (Rejected viewer_not_supported,
           logged (fallbackEvents s ty reason ++ [Log LogError reason']) w)
      end
  end.
Proof.
  intros Hs. cbv zeta. unfold negotiateReferenceSpace, then2.
  rewrite (session_requestReferenceSpace_run ty w s Hs).
  destruct (requestReferenceSpace s _ ty) as [sp | reason]; [reflexivity |].
  unfold in_promise at 1, bind at 1. rewrite emit_logged.
  unfold bind at 1. rewrite emit_logged.
  unfold bind at 1. rewrite emit_logged.
  rewrite session_requestReferenceSpace_run with (s := s) by exact Hs.
  rewrite !requestCount_logged, !logged_logged.
  cbn [map requestedTypes flat_map fst app List.length].
  rewrite !Nat.add_0_r, Nat.add_1_r.
  destruct (requestReferenceSpace s (S _) Viewer) as [v | reason']; [reflexivity |].
  unfold in_promise, bind. rewrite emit_logged, logged_logged.
  reflexivity.
Qed.

Lemma negotiateReferenceSpace_manager ty w :
  manager (snd (negotiateReferenceSpace ty w)) = manager w.
Proof.
  destruct (session (manager w)) as [s |] eqn:Hs.
  - rewrite (negotiateReferenceSpace_run ty w s Hs). cbv zeta.
    destruct (requestReferenceSpace s _ ty); [reflexivity |].
    destruct (requestReferenceSpace s _ Viewer); reflexivity.
  - unfold negotiateReferenceSpace, session_requestReferenceSpace. run.
    rewrite Hs. reflexivity.
Qed.

(** The whole chain, from the outcome of its first link. *)
Lemma setReferenceSpaceTypeAsync_run ty w s :
  session (manager w) = Some s ->
  setReferenceSpaceTypeAsync ty w =
  match negotiateReferenceSpace ty w with
  | (Fulfilled space, w1) =>
      match requestReferenceSpace s (List.length (requestedTypes (trace w1))) Viewer with
      | Resolves v =>
          (Fulfilled (Some space),
           with_trace
             (trace w1 ++
              [(RequestReferenceSpace s Viewer, manager w1);
               (NotifyReferenceSpaceChanged
                  (onXRReferenceSpaceChanged (manager w1)) (Some space),
                finalized space v (manager w1))])
             (with_manager (finalized space v (manager w1)) w1))
      | Rejects r => (Rejected r, logged [RequestReferenceSpace s Viewer] w1)
      end
  | (Rejected r, w1) => (Rejected r, w1)
  | (Thrown r, w1) => (Thrown r, w1)
  end.
Proof.
  intros Hs. unfold setReferenceSpaceTypeAsync, then_. unfold then2 at 1 2.
  pose proof (negotiateReferenceSpace_manager ty w) as Hm.
  destruct (negotiateReferenceSpace ty w) as [[space | r | r] w1];
    cbn [snd] in Hm; try reflexivity.
  assert (Hs1 : session (manager w1) = Some s) by (rewrite Hm; exact Hs).
  unfold in_promise, then2. cbv beta.
  rewrite (session_requestReferenceSpace_run Viewer w1 s Hs1).
  destruct (requestReferenceSpace s _ Viewer) as [v | r]; [| reflexivity].
  unfold referenceSpace_set, referenceSpace_get, logged. run.
  rewrite <- app_assoc. reflexivity.
Qed.

(** If the device grants the type asked for and then [viewer], the call
    succeeds. *)
Lemma setReferenceSpaceTypeAsync_granted ty w s space v :
  session (manager w) = Some s ->
  requestReferenceSpace s (List.length (requestedTypes (trace w))) ty
    = Resolves space ->
  requestReferenceSpace s (S (List.length (requestedTypes (trace w)))) Viewer
    = Resolves v ->
  fst (setReferenceSpaceTypeAsync ty w) = Fulfilled (Some space).
Proof.
  intros Hs Hty Hv.
  rewrite (setReferenceSpaceTypeAsync_run ty w s Hs),
          (negotiateReferenceSpace_run ty w s Hs).
  cbv zeta. rewrite Hty, requestCount_logged.
  cbn [map requestedTypes flat_map fst app List.length].
  rewrite Nat.add_1_r, Hv. reflexivity.
Qed.

(** C2.  When the device rejects the request for [T], the negotiation
    asks for ["viewer"] once and for nothing else; if ["viewer"] is
    granted the negotiated space is the granted space offset by
    [(0, -defaultHeightCompensation, 0)], the compensation being 1.7 on a
    fresh manager, and it is what the call stores and returns once the
    parallel ["viewer"] space (a later, separate request) is granted; if
    the fallback ["viewer"] request is rejected too, the call fails with
    the fatal error and requests nothing further. *)
Theorem viewer_fallback
    (ty : XRReferenceSpaceType) (w : World) (s : XRSession) (reason : string) :
  session (manager w) = Some s ->
  requestReferenceSpace s (List.length (requestedTypes (trace w))) ty
    = Rejects reason ->
  let k := List.length (requestedTypes (trace w)) in
  let w1 := snd (negotiateReferenceSpace ty w) in
  requestedTypes (trace w1) = requestedTypes (trace w) ++ [ty; Viewer] /\
  manager w1 = manager w /\
  (forall viewerSpace,
     requestReferenceSpace s (S k) Viewer = Resolves viewerSpace ->
     let compensated :=
       OffsetSpace viewerSpace
         {| position_x := zero;
            position_y := neg (defaultHeightCompensation (manager w));
            position_z := zero |} in
     fst (negotiateReferenceSpace ty w) = Fulfilled compensated /\
     forall parallel,
       requestReferenceSpace s (S (S k)) Viewer = Resolves parallel ->
       let w' := snd (setReferenceSpaceTypeAsync ty w) in
       fst (setReferenceSpaceTypeAsync ty w) = Fulfilled (Some compensated) /\
       _referenceSpace (manager w') = Some compensated /\
       baseReferenceSpace (manager w') = Some compensated /\
       requestedTypes (trace w') = requestedTypes (trace w) ++ [ty; Viewer; Viewer]) /\
  (forall reason',
     requestReferenceSpace s (S k) Viewer = Rejects reason' ->
     fst (setReferenceSpaceTypeAsync ty w) = Rejected viewer_not_supported /\
     requestedTypes (trace (snd (setReferenceSpaceTypeAsync ty w)))
       = requestedTypes (trace w) ++ [ty; Viewer] /\
     manager (snd (setReferenceSpaceTypeAsync ty w)) = manager w) /\
  (forall sceneOrEngine,
     defaultHeightCompensation (new_WebXRSessionManager sceneOrEngine)
       = Finite (Q2Qc (17 # 10))).
Proof.
  intros Hs Hty. cbv zeta.
  rewrite (setReferenceSpaceTypeAsync_run ty w s Hs),
          (negotiateReferenceSpace_run ty w s Hs).
  cbv zeta. rewrite Hty.
  split; [| split; [| split; [| split]]].
  - destruct (requestReferenceSpace s _ Viewer); cbn [snd logged trace with_trace];
      rewrite requestedTypes_app; reflexivity.
  - destruct (requestReferenceSpace s _ Viewer); reflexivity.
  - intros viewerSpace ->. cbv zeta. split; [reflexivity |].
    intros parallel Hp. rewrite requestCount_logged.
    cbn [map requestedTypes flat_map fst app List.length fallbackEvents].
    replace (List.length (requestedTypes (trace w)) + 2)
      with (S (S (List.length (requestedTypes (trace w))))) by lia.
    rewrite Hp. cbn [fst snd manager trace with_trace with_manager logged].
    rewrite !requestedTypes_app, <- app_assoc. repeat split.
  - intros reason' ->. cbn [fst snd logged trace with_trace].
    rewrite requestedTypes_app. repeat split.
  - intros [[sc e] | e]; reflexivity.
Qed.

Lemma viewer_fallback_witness :
  fst (negotiateReferenceSpace LocalFloor
         (Scenario.inSession (Scenario.browserXR Scenario.sessionViewerOnly)))
    = Fulfilled (OffsetSpace (DeviceSpace Viewer 1)
                   {| position_x := zero;
                      position_y := Finite (Q2Qc (- 17 # 10));
                      position_z := zero |}) /\
  fst (setReferenceSpaceTypeAsync LocalFloor
         (Scenario.inSession (Scenario.browserXR Scenario.sessionNoSpace)))
    = Rejected viewer_not_supported.
Proof.
  split.
  - refine (proj1 (proj1 (proj2 (proj2
              (viewer_fallback LocalFloor
                 (Scenario.inSession (Scenario.browserXR Scenario.sessionViewerOnly))
                 Scenario.sessionViewerOnly "NotSupportedError" _ _)))
              (DeviceSpace Viewer 1) _));
      vm_compute; reflexivity.
  - refine (proj1 (proj1 (proj2 (proj2 (proj2
              (viewer_fallback LocalFloor
                 (Scenario.inSession (Scenario.browserXR Scenario.sessionNoSpace))
                 Scenario.sessionNoSpace "NotSupportedError" _ _))))
              "NotSupportedError" _));
      vm_compute; reflexivity.
Defined.

(** C3.  When [setReferenceSpaceTypeAsync(T)] succeeds, the base and the
    current reference space are both the space its negotiation (fallback
    included) resolved, which is also what the call returns, and
    [viewerReferenceSpace] holds the space of the parallel ["viewer"]
    request, made after the negotiation and before base and current are
    assigned. *)
Theorem setReferenceSpaceTypeAsync_success
    (ty : XRReferenceSpaceType) (w w' : World) (result : option XRReferenceSpace) :
  setReferenceSpaceTypeAsync ty w = (Fulfilled result, w') ->
  exists (s : XRSession) (space viewerSpace : XRReferenceSpace) (w1 : World),
    negotiateReferenceSpace ty w = (Fulfilled space, w1) /\
    result = Some space /\
    baseReferenceSpace (manager w') = Some space /\
    _referenceSpace (manager w') = Some space /\
    viewerReferenceSpace (manager w') = Some viewerSpace /\
    requestReferenceSpace s (List.length (requestedTypes (trace w1))) Viewer
      = Resolves viewerSpace /\
    trace w' =
      trace w1 ++
      [(RequestReferenceSpace s Viewer, manager w);
       (NotifyReferenceSpaceChanged
          (onXRReferenceSpaceChanged (manager w)) (Some space),
        manager w')] /\
    manager w' = finalized space viewerSpace (manager w).
Proof.
  intros H.
  destruct (session (manager w)) as [s |] eqn:Hs.
  - rewrite (setReferenceSpaceTypeAsync_run ty w s Hs) in H.
    pose proof (negotiateReferenceSpace_manager ty w) as Hm.
    destruct (negotiateReferenceSpace ty w) as [[space | r | r] w1];
      cbn [snd] in Hm; try discriminate.
    destruct (requestReferenceSpace s _ Viewer) as [v | r] eqn:Hv; [| discriminate].
    injection H as <- <-.
    exists s, space, v, w1. cbn. rewrite Hm. repeat split. exact Hv.
  - exfalso. revert H.
    unfold setReferenceSpaceTypeAsync, negotiateReferenceSpace,
      session_requestReferenceSpace. run. rewrite Hs. discriminate.
Qed.

Lemma setReferenceSpaceTypeAsync_success_witness :
  exists (s : XRSession) (space viewerSpace : XRReferenceSpace) (w1 w' : World),
    setReferenceSpaceTypeAsync LocalFloor
      (Scenario.inSession (Scenario.browserXR Scenario.sessionFloor))
      = (Fulfilled (Some space), w') /\
    space = DeviceSpace LocalFloor 0 /\
    baseReferenceSpace (manager w') = Some space /\
    _referenceSpace (manager w') = Some space /\
    viewerReferenceSpace (manager w') = Some viewerSpace /\
    List.length (trace w') = List.length (trace w1) + 2.
Proof.
  assert (E : setReferenceSpaceTypeAsync LocalFloor
                (Scenario.inSession (Scenario.browserXR Scenario.sessionFloor))
              = (Fulfilled (Some (DeviceSpace LocalFloor 0)),
                 snd (setReferenceSpaceTypeAsync LocalFloor
                        (Scenario.inSession
                           (Scenario.browserXR Scenario.sessionFloor)))))
    by (vm_compute; reflexivity).
  destruct (setReferenceSpaceTypeAsync_success LocalFloor _ _ _ E)
    as (s & space & v & w1 & Hn & Hr & Hb & Hc & Hv & _ & Ht & _).
  exists s, space, v, w1,
    (snd (setReferenceSpaceTypeAsync LocalFloor
            (Scenario.inSession (Scenario.browserXR Scenario.sessionFloor)))).
  injection Hr as <-.
  split; [exact E |].
  split; [reflexivity |].
  split; [exact Hb |].
  split; [exact Hc |].
  split; [exact Hv |].
  rewrite Ht, length_app. reflexivity.
Defined.

End ReferenceSpaceNegotiation.

(* ================================================================== *)
(** * The end of a session *)
(* ================================================================== *)

Section SessionEnd.
Import SessionManager.

Lemma events_snoc t e m : events (t ++ [(e, m)]) = events t ++ [e].
Proof. unfold events. rewrite map_app. reflexivity. Qed.

(** What the ["end"] listener does, on a manager that has a
    [navigator.xr]. *)
Lemma onSessionEnd_run w nav sys :
  _xrNavigator (manager w) = Some nav ->
  xr nav = Some sys ->
  let w' := snd (onSessionEnd w) in
  fst (onSessionEnd w) = Fulfilled tt /\
  events (trace w') =
    events (trace w)
    ++ [NotifySessionEnded (onXRSessionEnded (manager w))]
    ++ (if is_some (engine (manager w))
        then [EngineRestoreDefaultFramebuffer; EngineRenderLoop] else [])
    ++ (if nativeHost (manager w)
        then match _baseLayerRTTProvider (manager w) with
             | Some p => [ProviderDispose p]
             | None => []
             end
        else []) /\
  _baseLayerRTTProvider (manager w') = None /\
  _baseLayerWrapper (manager w') = None /\
  inXRSession (manager w') = false /\
  endListeners w' = endListeners w.
Proof.
  destruct w as [m gnav lay subs pending t]; destruct m. cbn [manager _xrNavigator].
  intros -> Hxr. destruct nav as [x]; cbn in Hxr; subst x.
  destruct sys as [[[|] |] ? ? ?];
    cbv zeta; unfold onSessionEnd, isNative, nativeHost; run; cbn;
    repeat match goal with
           | |- context [match ?o with Some _ => _ | None => _ end] =>
               is_var o; destruct o; cbn
           end;
    unfold events; rewrite ?map_app; cbn; rewrite <- ?app_assoc; cbn;
    repeat split.
Qed.

(** [exitXRAsync] disposes nothing and keeps every field but the
    in-session flag. *)
Lemma exitXRAsync_effects w :
  let w' := snd (exitXRAsync w) in
  (exists evs, events (trace w') = events (trace w) ++ evs /\
               forall p, ~ In (ProviderDispose p) evs) /\
  endListeners w' = endListeners w /\
  _xrNavigator (manager w') = _xrNavigator (manager w) /\
  _baseLayerRTTProvider (manager w') = _baseLayerRTTProvider (manager w).
Proof.
  cbv zeta. unfold exitXRAsync. run.
  destruct (session (manager w)) as [s |];
    [destruct (inXRSession (manager w)); [destruct (end_ s) as [[] | r] |] |];
    cbn; unfold events; rewrite ?map_app; cbn; rewrite <- ?app_assoc; cbn.
  - split; [| repeat split]. exists [SessionEnd s]. split; [reflexivity |].
    intros p [H | []]; discriminate.
  - split; [| repeat split].
    exists [SessionEnd s; Log LogWarn "Could not end XR session."].
    split; [reflexivity |]. intros p [H | [H | []]]; discriminate.
  - split; [| repeat split]. exists []. rewrite app_nil_r. split; [reflexivity |].
    intros p [].
  - split; [| repeat split]. exists []. rewrite app_nil_r. split; [reflexivity |].
    intros p [].
Qed.

(** With one listener pending on [s], the device's ["end"] runs the
    handler once and leaves no listener behind. *)
Lemma sessionEnds_once w s :
  endListeners w = [session_id s] ->
  sessionEnds s w = (Fulfilled tt, snd (onSessionEnd (with_endListeners [] w))).
Proof.
  intros Hl. unfold sessionEnds. run. rewrite Hl.
  cbn [filter runEndListeners]. rewrite Nat.eqb_refl. reflexivity.
Qed.

Lemma isNative_run w nav sys :
  _xrNavigator (manager w) = Some nav ->
  xr nav = Some sys ->
  isNative w = (Fulfilled (nativeHost (manager w)), w).
Proof.
  intros Hnav Hxr. unfold isNative, nativeHost. run. rewrite Hnav. cbn.
  rewrite Hxr. reflexivity.
Qed.

(** C9.  When a session ends, by [exitXRAsync] or by the device, the end
    handler disposes the render-target-texture provider exactly when the
    host says it is native ([navigator.xr.native] is [true]), and in
    either case leaves the layer-wrapper and provider references
    cleared. *)
Theorem session_end_disposes_on_native_only
    (explicitExit : bool) (w : World) (s : XRSession)
    (nav : Navigator) (sys : XRSystem) :
  _xrNavigator (manager w) = Some nav ->
  xr nav = Some sys ->
  endListeners w = [session_id s] ->
  let w' := snd (endSession explicitExit s w) in
  (exists evs,
     events (trace w') = events (trace w) ++ evs /\
     forall p, In (ProviderDispose p) evs <->
               (native sys = Some true /\
                _baseLayerRTTProvider (manager w) = Some p)) /\
  _baseLayerRTTProvider (manager w') = None /\
  _baseLayerWrapper (manager w') = None /\
  endListeners w' = [].
Proof.
  intros Hnav Hxr Hl. cbv zeta.
  assert (Hnat : forall P : Prop,
             (nativeHost (manager w) = true /\ P) <-> (native sys = Some true /\ P)).
  { intros P. unfold nativeHost. rewrite Hnav, Hxr.
    destruct (native sys) as [[|] |]; split; intros [A B]; split;
      try assumption; try reflexivity; discriminate. }
  assert (Hend : forall w0,
             _xrNavigator (manager w0) = Some nav ->
             endListeners w0 = [session_id s] ->
             let w' := snd (sessionEnds s w0) in
             events (trace w') =
               events (trace w0)
               ++ [NotifySessionEnded (onXRSessionEnded (manager w0))]
               ++ (if is_some (engine (manager w0))
                   then [EngineRestoreDefaultFramebuffer; EngineRenderLoop] else [])
               ++ (if nativeHost (manager w0)
                   then match _baseLayerRTTProvider (manager w0) with
                        | Some p => [ProviderDispose p]
                        | None => []
                        end
                   else []) /\
             _baseLayerRTTProvider (manager w') = None /\
             _baseLayerWrapper (manager w') = None /\
             endListeners w' = []).
  { intros w0 Hn0 Hl0. cbv zeta. rewrite (sessionEnds_once w0 s Hl0). cbn [snd].
    destruct (onSessionEnd_run (with_endListeners [] w0) nav sys Hn0 Hxr)
      as (_ & He & Hp & Hw & _ & Hls).
    repeat split; assumption. }
  assert (Hin : forall (m : WebXRSessionManager) pre p,
             (forall q, ~ In (ProviderDispose q) pre) ->
             In (ProviderDispose p)
                (pre ++ [NotifySessionEnded (onXRSessionEnded m)]
                 ++ (if is_some (engine m)
                     then [EngineRestoreDefaultFramebuffer; EngineRenderLoop] else [])
                 ++ (if nativeHost m
                     then match _baseLayerRTTProvider m with
                          | Some p => [ProviderDispose p]
                          | None => []
                          end
                     else [])) <->
             (nativeHost m = true /\
              _baseLayerRTTProvider m = Some p)).
  { intros m pre p Hpre. rewrite !in_app_iff. split.
    - intros [H | [[H | []] | [H | H]]].
      + destruct (Hpre p H).
      + discriminate.
      + destruct (is_some (engine m)); [destruct H as [H | [H | []]] |];
          try discriminate; destruct H.
      + destruct (nativeHost m); [| destruct H].
        destruct (_baseLayerRTTProvider m) as [q |]; [| destruct H].
        destruct H as [H | []]. injection H as ->. split; reflexivity.
    - intros [Hn Hp]. right. right. right.
      rewrite Hn, Hp. left. reflexivity. }
  unfold endSession, when. destruct explicitExit.
  - destruct (exitXRAsync_run w) as [Hfst Hman].
    destruct (exitXRAsync_effects w) as ((pre & Hpre & Hno) & Hl1 & Hn1 & Hp1).
    assert (Hb : (exitXRAsync ;; sessionEnds s) w
                 = sessionEnds s (snd (exitXRAsync w))).
    { unfold bind. destruct (exitXRAsync w) as [c w1]. cbn [fst snd] in *.
      subst c. reflexivity. }
    rewrite Hb. clear Hb.
    destruct (exitXRAsync w) as [c w1]. cbn [fst snd] in *. subst c.
    destruct (Hend w1 (eq_trans Hn1 Hnav) (eq_trans Hl1 Hl)) as (He & HP & HW & HL).
    assert (Hfields : onXRSessionEnded (manager w1) = onXRSessionEnded (manager w) /\
                      engine (manager w1) = engine (manager w) /\
                      nativeHost (manager w1) = nativeHost (manager w)).
    { rewrite Hman.
      destruct (is_some (session (manager w)) && inXRSession (manager w));
        repeat split. }
    destruct Hfields as (Ho & Hg & Hh).
    split; [| repeat split; assumption].
    eexists. split.
    + rewrite He, Hpre, <- app_assoc. reflexivity.
    + intros p. rewrite Ho, Hg, Hh, Hp1.
      exact (iff_trans (Hin (manager w) pre p Hno) (Hnat _)).
  - change ((ret tt ;; sessionEnds s) w) with (sessionEnds s w).
    destruct (Hend w Hnav Hl) as (He & HP & HW & HL).
    split; [| repeat split; assumption].
    eexists. split; [exact He |].
    intros p. refine (iff_trans (Hin (manager w) [] p _) (Hnat _)). intros q [].
Qed.

(** On a native host the provider of the ended session is disposed; in
    a browser the manager has a provider just the same, and none is
    disposed; the references are cleared in both. *)
Lemma session_end_disposes_on_native_only_witness :
  (let w := Scenario.rendering (Scenario.nativeXR Scenario.sessionFloor) in
   let w' := snd (endSession true Scenario.sessionFloor w) in
   _baseLayerRTTProvider (manager w)
     = createRenderTargetTextureProvider (NativeXRLayerWrapper Scenario.layer0) /\
   (forall p,
      createRenderTargetTextureProvider (NativeXRLayerWrapper Scenario.layer0) = Some p ->
      In (ProviderDispose p) (events (trace w'))) /\
   _baseLayerRTTProvider (manager w') = None /\
   _baseLayerWrapper (manager w') = None) /\
  (let w := Scenario.rendering (Scenario.browserXR Scenario.sessionFloor) in
   let w' := snd (endSession false Scenario.sessionFloor w) in
   _baseLayerRTTProvider (manager w)
     = createRenderTargetTextureProvider (WebXRWebGLLayerWrapper Scenario.layer0) /\
   (forall p, ~ In (ProviderDispose p) (events (trace w'))) /\
   _baseLayerRTTProvider (manager w') = None /\
   _baseLayerWrapper (manager w') = None).
Proof.
  split; cbv zeta.
  - assert (H1 : _xrNavigator (manager (Scenario.rendering (Scenario.nativeXR Scenario.sessionFloor)))
                 = Some {| xr := Some (Scenario.nativeXR Scenario.sessionFloor) |})
      by (vm_compute; reflexivity).
    assert (H3 : endListeners (Scenario.rendering (Scenario.nativeXR Scenario.sessionFloor))
                 = [session_id Scenario.sessionFloor])
      by (vm_compute; reflexivity).
    assert (H4 : _baseLayerRTTProvider (manager (Scenario.rendering (Scenario.nativeXR Scenario.sessionFloor)))
       = createRenderTargetTextureProvider (NativeXRLayerWrapper Scenario.layer0))
      by (vm_compute; reflexivity).
    destruct (session_end_disposes_on_native_only true
                  (Scenario.rendering (Scenario.nativeXR Scenario.sessionFloor))
                  Scenario.sessionFloor
                  {| xr := Some (Scenario.nativeXR Scenario.sessionFloor) |}
                  (Scenario.nativeXR Scenario.sessionFloor)
                  H1 eq_refl H3)
        as ((evs & He & Hiff) & Hp & Hw & _).
    split; [exact H4 |].
    split; [| split; [exact Hp | exact Hw]].
    intros p Hq.
    refine (eq_ind_r (fun l => In (ProviderDispose p) l) _ He).
    apply in_or_app. right. apply Hiff.
    split; [reflexivity |]. rewrite <- Hq. exact H4.
  - assert (H1 : _xrNavigator (manager (Scenario.rendering (Scenario.browserXR Scenario.sessionFloor)))
                 = Some {| xr := Some (Scenario.browserXR Scenario.sessionFloor) |})
      by (vm_compute; reflexivity).
    assert (H3 : endListeners (Scenario.rendering (Scenario.browserXR Scenario.sessionFloor))
                 = [session_id Scenario.sessionFloor])
      by (vm_compute; reflexivity).
    assert (H4 : _baseLayerRTTProvider (manager (Scenario.rendering (Scenario.browserXR Scenario.sessionFloor)))
       = createRenderTargetTextureProvider (WebXRWebGLLayerWrapper Scenario.layer0))
      by (vm_compute; reflexivity).
    assert (H5 : forall p, ~ In (ProviderDispose p)
                   (events (trace (Scenario.rendering (Scenario.browserXR Scenario.sessionFloor))))).
    { eassert (Ht : events (trace (Scenario.rendering
                                     (Scenario.browserXR Scenario.sessionFloor))) = _)
        by (vm_compute; reflexivity).
      intros p H.
      refine (_ (eq_ind _ (fun l => In (ProviderDispose p) l) H _ Ht)). clear H. intros H.
      repeat (destruct H as [H | H]; [discriminate H |]). exact H. }
    destruct (session_end_disposes_on_native_only false
                  (Scenario.rendering (Scenario.browserXR Scenario.sessionFloor))
                  Scenario.sessionFloor
                  {| xr := Some (Scenario.browserXR Scenario.sessionFloor) |}
                  (Scenario.browserXR Scenario.sessionFloor)
                  H1 eq_refl H3)
        as ((evs & He & Hiff) & Hp & Hw & _).
    split; [exact H4 |].
    split; [| split; [exact Hp | exact Hw]].
    intros p.
    refine (eq_ind_r (fun l => ~ In (ProviderDispose p) l) _ He).
    intros Hin. apply in_app_or in Hin. destruct Hin as [Hin | Hin].
    + exact (H5 p Hin).
    + apply Hiff in Hin. destruct Hin as [Hn _]. discriminate Hn.
Defined.

End SessionEnd.

(* ================================================================== *)
(** * Entering a session *)
(* ================================================================== *)

Section SessionInit.
Import SessionManager.

(** A successful [initializeSessionAsync], effect by effect: the request,
    the session-initialized notification as the subscribers see the
    manager, and the registration of the ["end"] listener. *)
Lemma initializeSessionAsync_run mode init w nav sys s :
  _xrNavigator (manager w) = Some nav ->
  xr nav = Some sys ->
  requestSession sys mode init = Resolves s ->
  let m1 := set_sessionMode (Some mode) (set_session (Some s) (manager w)) in
  let m2 := set_inXRSession true m1 in
  initializeSessionAsync mode init w =
  (Fulfilled (Some s),
   mkWorld m2 (navigator w) (initializeXRLayerAsync w) (constructorSubscriptions w)
     (endListeners w ++ [session_id s])
     (trace w ++
      [(RequestSession mode init, manager w);
       (NotifySessionInit (onXRSessionInit (manager w)) (Some s), m1);
       (SessionAddEndListener s, m2)])).
Proof.
  intros Hnav Hxr Hreq. cbv zeta. unfold initializeSessionAsync, addEndListenerOnce.
  run. rewrite Hnav. cbn. rewrite Hxr. cbn. rewrite Hreq. cbn.
  rewrite <- !app_assoc. reflexivity.
Qed.

(** A rejected session request leaves the manager as it was. *)
Lemma initializeSessionAsync_rejected mode init w nav sys reason :
  _xrNavigator (manager w) = Some nav ->
  xr nav = Some sys ->
  requestSession sys mode init = Rejects reason ->
  fst (initializeSessionAsync mode init w) = Rejected reason /\
  manager (snd (initializeSessionAsync mode init w)) = manager w.
Proof.
  intros Hnav Hxr Hreq. unfold initializeSessionAsync. run.
  rewrite Hnav. cbn. rewrite Hxr. cbn. rewrite Hreq. split; reflexivity.
Qed.

(** C1.  On a manager freshly initialized in a browser granting a
    session, [initializeSessionAsync("immersive-vr", {})] succeeds and has
    three effects in this order: the session request, the
    session-initialized notification, the registration of the one-shot
    end listener.  When the notification is delivered the session and its
    mode are stored but the in-session flag is still [false]; the flag is
    [true] only from the registration on. *)
Theorem initializeSessionAsync_notifies_before_flag :
  let w := snd (initializeAsync
                  (Scenario.freshWorld (Some (Scenario.browserXR Scenario.sessionFloor)))) in
  let w' := snd (initializeSessionAsync ImmersiveVR Scenario.init0 w) in
  fst (initializeSessionAsync ImmersiveVR Scenario.init0 w)
    = Fulfilled (Some Scenario.sessionFloor) /\
  exists m1 m2,
    trace w' =
      [(RequestSession ImmersiveVR Scenario.init0, manager w);
       (NotifySessionInit [] (Some Scenario.sessionFloor), m1);
       (SessionAddEndListener Scenario.sessionFloor, m2)] /\
    session m1 = Some Scenario.sessionFloor /\
    _sessionMode m1 = Some ImmersiveVR /\
    inXRSession m1 = false /\
    inXRSession m2 = true /\
    inXRSession (manager w') = true /\
    endListeners w' = [session_id Scenario.sessionFloor].
Proof.
  cbv zeta.
  rewrite (initializeSessionAsync_run ImmersiveVR Scenario.init0
             (snd (initializeAsync
                     (Scenario.freshWorld
                        (Some (Scenario.browserXR Scenario.sessionFloor)))))
             {| xr := Some (Scenario.browserXR Scenario.sessionFloor) |}
             (Scenario.browserXR Scenario.sessionFloor) Scenario.sessionFloor
             eq_refl eq_refl eq_refl).
  cbv zeta. split; [reflexivity |].
  eexists. eexists. split; [reflexivity |]. repeat split.
Qed.

End SessionInit.

(* ================================================================== *)
(** * Moving the default experience to another scene *)
(* ================================================================== *)

Section Migration.

(** C8.  [moveXRToScene] on an experience that is not persistent rejects
    with the error that names [CreatePersistentAsync()], and changes
    nothing: neither the experience, nor the session manager's world, nor
    any collaborator is touched. *)
Theorem moveXRToScene_requires_persistent
    (xw : DefaultExperience.ExperienceWorld) (nextScene : Scene)
    (hookUp : DefaultExperience.WebXRDefaultExperience -> M unit) :
  DefaultExperience.persistent (DefaultExperience.experience xw) = false ->
  DefaultExperience.moveXRToScene nextScene hookUp xw =
  (Rejected "DefaultExperience must be instanced with CreatePersistentAsync() to move XR",
   xw).
Proof.
  intros Hp. unfold DefaultExperience.moveXRToScene, DefaultExperience.self.
  unfold in_promise, bind. rewrite Hp. reflexivity.
Qed.

Lemma moveXRToScene_requires_persistent_witness :
  DefaultExperience.moveXRToScene 6 Scenario.hookUp0 Scenario.singleSceneExperience =
  (Rejected "DefaultExperience must be instanced with CreatePersistentAsync() to move XR",
   Scenario.singleSceneExperience).
Proof.
  apply (moveXRToScene_requires_persistent Scenario.singleSceneExperience 6
           Scenario.hookUp0).
  reflexivity.
Defined.

End Migration.

(* ================================================================== *)
(** * Further properties: leaving and entering a session *)
(* ================================================================== *)

(** Splits a world and its manager into their fields. *)
Ltac fields w :=
  let m := fresh "m" in
  destruct w as [m gnav lay subs pending t]; destruct m;
  cbn [manager trace endListeners navigator State.persistent inXRSession session
       engine _xrNavigator _baseLayerRTTProvider _baseLayerWrapper _renderState
       _renderTarget _referenceSpace baseReferenceSpace] in *.

Section LeavingAndEntering.
Import SessionManager.

(** X1.  [exitXRAsync] never rejects, not even when [session.end()]
    does.  In a session it clears the in-session flag, calls
    [session.end()], and logs the warning ["Could not end XR session."]
    exactly when that call rejects; it does nothing else.  Without a
    session or outside a session it has no effect at all; and a second
    call right after a first has no effect. *)
Theorem exitXRAsync_idempotent (w : World) :
  fst (exitXRAsync w) = Fulfilled tt /\
  (forall s, session (manager w) = Some s -> inXRSession (manager w) = true ->
     let m' := set_inXRSession false (manager w) in
     snd (exitXRAsync w) =
     with_trace
       (trace w ++
        (SessionEnd s, m') ::
        match end_ s with
        | Rejects _ => [(Log LogWarn "Could not end XR session.", m')]
        | Resolves _ => []
        end)
       (with_manager m' w)) /\
  (session (manager w) = None \/ inXRSession (manager w) = false ->
   exitXRAsync w = (Fulfilled tt, w)) /\
  exitXRAsync (snd (exitXRAsync w)) = (Fulfilled tt, snd (exitXRAsync w)).
Proof.
  split; [apply exitXRAsync_run |]. split; [| split].
  - fields w. intros s -> ->. unfold exitXRAsync. run. cbn.
    destruct (end_ s) as [[] | r]; cbn; rewrite <- ?app_assoc; reflexivity.
  - fields w. intros [-> | ->]; unfold exitXRAsync; run; cbn;
      [reflexivity | destruct session0; reflexivity].
  - fields w. unfold exitXRAsync. run. cbn.
    destruct session0 as [s |]; [| reflexivity].
    destruct inXRSession0; [| reflexivity].
    destruct (end_ s) as [[] | r]; reflexivity.
Qed.

Lemma exitXRAsync_idempotent_witness :
  exitXRAsync (Scenario.freshWorld (Some (Scenario.browserXR Scenario.sessionFloor)))
    = (Fulfilled tt,
       Scenario.freshWorld (Some (Scenario.browserXR Scenario.sessionFloor))) /\
  fst (exitXRAsync (Scenario.inSession (Scenario.browserXR Further.sessionStuck)))
    = Fulfilled tt /\
  (let w := Scenario.inSession (Scenario.browserXR Further.sessionStuck) in
   events (trace (snd (exitXRAsync w))) =
   events (trace w) ++
   [SessionEnd Further.sessionStuck; Log LogWarn "Could not end XR session."]) /\
  (let w := Scenario.inSession (Scenario.browserXR Scenario.sessionFloor) in
   events (trace (snd (exitXRAsync w))) =
   events (trace w) ++ [SessionEnd Scenario.sessionFloor]).
Proof.
  split; [| split; [| split]].
  - refine (proj1 (proj2 (proj2 (exitXRAsync_idempotent _))) _). left. reflexivity.
  - exact (proj1 (exitXRAsync_idempotent _)).
  - cbv zeta.
    rewrite (proj1 (proj2 (exitXRAsync_idempotent
               (Scenario.inSession (Scenario.browserXR Further.sessionStuck))))
               Further.sessionStuck eq_refl eq_refl).
    vm_compute. reflexivity.
  - cbv zeta.
    rewrite (proj1 (proj2 (exitXRAsync_idempotent
               (Scenario.inSession (Scenario.browserXR Scenario.sessionFloor))))
               Scenario.sessionFloor eq_refl eq_refl).
    vm_compute. reflexivity.
Defined.



(** X4.  [initializeAsync] records the global [navigator] and rejects
    with ["WebXR not available"] exactly when [navigator.xr] is absent;
    the recorded navigator is its only effect, on the manager and on
    everything else, so calling it again settles the same way. *)
Theorem initializeAsync_needs_xr (w : World) :
  let w' := snd (initializeAsync w) in
  w' = with_manager (set_xrNavigator (Some (navigator w)) (manager w)) w /\
  _xrNavigator (manager w') = Some (navigator w) /\
  trace w' = trace w /\
  (fst (initializeAsync w) = Rejected "WebXR not available"
   <-> xr (navigator w) = None) /\
  (fst (initializeAsync w) = Fulfilled tt <-> xr (navigator w) <> None) /\
  initializeAsync w' = (fst (initializeAsync w), w').
Proof.
  fields w. cbv zeta. unfold initializeAsync. run. cbn.
  destruct (xr gnav) as [sys |] eqn:E; cbn; rewrite ?E; repeat split;
    try discriminate; try congruence.
Qed.

Lemma initializeAsync_needs_xr_witness :
  fst (initializeAsync (Scenario.freshWorld None)) = Rejected "WebXR not available" /\
  fst (initializeAsync
         (Scenario.freshWorld (Some (Scenario.browserXR Scenario.sessionFloor))))
    = Fulfilled tt.
Proof.
  split.
  - refine (proj2 (proj1 (proj2 (proj2 (proj2 (initializeAsync_needs_xr _))))) _).
    reflexivity.
  - refine (proj2 (proj1 (proj2 (proj2 (proj2 (proj2 (initializeAsync_needs_xr _)))))) _).
    discriminate.
Defined.

(** X5.  On a manager that [initializeAsync] has not initialized, or
    whose [initializeAsync] was rejected, [initializeSessionAsync] throws
    a [TypeError] synchronously: no promise, no session request, nothing
    changed. *)
Theorem initializeSessionAsync_needs_initialization
    (mode : XRSessionMode) (init : XRSessionInit) (w : World) :
  (_xrNavigator (manager w) = None \/
   exists nav, _xrNavigator (manager w) = Some nav /\ xr nav = None) ->
  initializeSessionAsync mode init w = (Thrown TypeError, w).
Proof.
  fields w. intros [-> | (nav & -> & Hxr)]; unfold initializeSessionAsync; run; cbn;
    [| rewrite Hxr]; reflexivity.
Qed.

Lemma initializeSessionAsync_needs_initialization_witness :
  initializeSessionAsync ImmersiveVR Scenario.init0
    (Scenario.freshWorld (Some (Scenario.browserXR Scenario.sessionFloor)))
  = (Thrown TypeError,
     Scenario.freshWorld (Some (Scenario.browserXR Scenario.sessionFloor))) /\
  initializeSessionAsync ImmersiveAR Scenario.init0
    (snd (initializeAsync (Scenario.freshWorld None)))
  = (Thrown TypeError, snd (initializeAsync (Scenario.freshWorld None))).
Proof.
  split.
  - apply (initializeSessionAsync_needs_initialization ImmersiveVR Scenario.init0
             (Scenario.freshWorld (Some (Scenario.browserXR Scenario.sessionFloor)))).
    left. reflexivity.
  - apply (initializeSessionAsync_needs_initialization ImmersiveAR Scenario.init0
             (snd (initializeAsync (Scenario.freshWorld None)))).
    right. exists {| xr := None |}. split; reflexivity.
Defined.

(** X6.  When the platform rejects the session request,
    [initializeSessionAsync] rejects with the platform's reason; its one
    effect is the request: no field changes (so the in-session flag stays
    as it was), nothing is notified and no end listener is registered. *)
Theorem initializeSessionAsync_rejection
    (mode : XRSessionMode) (init : XRSessionInit) (w : World)
    (nav : Navigator) (sys : XRSystem) (reason : string) :
  _xrNavigator (manager w) = Some nav ->
  xr nav = Some sys ->
  requestSession sys mode init = Rejects reason ->
  initializeSessionAsync mode init w =
  (Rejected reason, logged [RequestSession mode init] w).
Proof.
  fields w. intros -> Hxr Hreq. unfold initializeSessionAsync. run. cbn.
  rewrite Hxr. cbn. rewrite Hreq. reflexivity.
Qed.

Lemma initializeSessionAsync_rejection_witness :
  let w := snd (initializeAsync (Scenario.freshWorld (Some Scenario.rejectingXR))) in
  initializeSessionAsync ImmersiveVR Scenario.init0 w =
  (Rejected "NotSupportedError", logged [RequestSession ImmersiveVR Scenario.init0] w).
Proof.
  apply (initializeSessionAsync_rejection ImmersiveVR Scenario.init0
           (snd (initializeAsync (Scenario.freshWorld (Some Scenario.rejectingXR))))
           {| xr := Some Scenario.rejectingXR |} Scenario.rejectingXR
           "NotSupportedError");
    reflexivity.
Defined.

End LeavingAndEntering.

(* ================================================================== *)
(** * Further properties: reference space, render loop, layers *)
(* ================================================================== *)

Section SpacesAndFrames.
Import SessionManager.

Lemma writeSpaces_base spaces w :
  fst (Further.writeSpaces spaces w) = Fulfilled tt /\
  baseReferenceSpace (manager (snd (Further.writeSpaces spaces w)))
    = baseReferenceSpace (manager w).
Proof.
  revert w. induction spaces as [| sp rest IH]; intros w; [split; reflexivity |].
  cbn [Further.writeSpaces].
  change ((referenceSpace_set sp ;; Further.writeSpaces rest) w)
    with (Further.writeSpaces rest (snd (referenceSpace_set sp w))).
  destruct (IH (snd (referenceSpace_set sp w))) as [F B].
  split; [exact F | rewrite B; reflexivity].
Qed.

(** X3.  After any run of writes to [referenceSpace],
    [resetReferenceSpace] makes the current space the base space again,
    leaves the base space alone, and announces the base space to the
    reference-space-changed subscribers. *)
Theorem resetReferenceSpace_restores_base
    (spaces : list (option XRReferenceSpace)) (w : World) :
  let w1 := snd (Further.writeSpaces spaces w) in
  let w' := snd (resetReferenceSpace w1) in
  fst ((Further.writeSpaces spaces ;; resetReferenceSpace) w) = Fulfilled tt /\
  w' = snd ((Further.writeSpaces spaces ;; resetReferenceSpace) w) /\
  _referenceSpace (manager w') = baseReferenceSpace (manager w) /\
  baseReferenceSpace (manager w') = baseReferenceSpace (manager w) /\
  trace w' =
    trace w1 ++
    [(NotifyReferenceSpaceChanged (onXRReferenceSpaceChanged (manager w1))
        (baseReferenceSpace (manager w)), manager w')].
Proof.
  cbv zeta. destruct (writeSpaces_base spaces w) as [F B].
  unfold bind at 1 2.
  destruct (Further.writeSpaces spaces w) as [c w1]. cbn [fst snd] in *. subst c.
  unfold resetReferenceSpace, referenceSpace_set. run. rewrite B.
  repeat split. exact B.
Qed.

(** X7.  [runXRRenderLoop] does nothing outside a session or without
    an engine.  In a session it installs the XR frame requester on the
    engine, hands the engine the provider's framebuffer dimensions,
    cancels the window's animation frame where there is a window, and
    starts the engine's render loop. *)
Theorem runXRRenderLoop_guard (hasWindow : bool) (w : World) :
  (inXRSession (manager w) = false \/ engine (manager w) = None ->
   runXRRenderLoop hasWindow w = (Fulfilled tt, w)) /\
  (forall e, inXRSession (manager w) = true -> engine (manager w) = Some e ->
     let w' := snd (runXRRenderLoop hasWindow w) in
     engine (manager w') =
       Some {| framebufferDimensionsObject :=
                 match _baseLayerRTTProvider (manager w) with
                 | Some p => getFramebufferDimensions p
                 | None => None
                 end;
               customAnimationFrameRequester := true;
               getRenderingCanvas := getRenderingCanvas e |} /\
     events (trace w') =
       events (trace w)
       ++ (if hasWindow then [WindowCancelAnimationFrame] else [])
       ++ [EngineRenderLoop]).
Proof.
  fields w. split.
  - intros [-> | ->]; unfold runXRRenderLoop; run; cbn;
      [reflexivity | destruct inXRSession0; reflexivity].
  - intros e -> ->. cbv zeta. unfold runXRRenderLoop. run. cbn.
    destruct hasWindow; cbn; unfold events; rewrite ?map_app; cbn;
      rewrite <- ?app_assoc; split; reflexivity.
Qed.

Lemma runXRRenderLoop_guard_witness :
  runXRRenderLoop true
    (Scenario.freshWorld (Some (Scenario.browserXR Scenario.sessionFloor)))
  = (Fulfilled tt,
     Scenario.freshWorld (Some (Scenario.browserXR Scenario.sessionFloor))) /\
  events (trace (snd (runXRRenderLoop true
                        (Scenario.rendering (Scenario.browserXR Scenario.sessionFloor)))))
  = events (trace (Scenario.rendering (Scenario.browserXR Scenario.sessionFloor)))
    ++ [WindowCancelAnimationFrame] ++ [EngineRenderLoop].
Proof.
  split.
  - refine (proj1 (runXRRenderLoop_guard true _) _). left. reflexivity.
  - refine (proj2 (proj2 (runXRRenderLoop_guard true
              (Scenario.rendering (Scenario.browserXR Scenario.sessionFloor)))
              Scenario.engine0 _ _));
      vm_compute; reflexivity.
Defined.

(** X8.  The installed [renderFunction] ignores a tick outside a session
    or without an engine: nothing is recorded, nobody is notified.  In a
    session it records the frame and the timestamp; with a frame it
    notifies the frame subscribers, who see the in-frame-loop flag set, the
    frame and timestamp recorded and the provider's framebuffer dimensions
    on the engine, and only then runs the engine's render loop; afterwards
    the flag is off and the dimensions are unset again.  A tick without a
    frame notifies nobody. *)
Theorem renderFunction_tick
    (timestamp : number) (xrFrame : option XRFrame) (w : World) :
  (inXRSession (manager w) = false \/ engine (manager w) = None ->
   renderFunction timestamp xrFrame w = (Fulfilled tt, w)) /\
  (forall e, inXRSession (manager w) = true -> engine (manager w) = Some e ->
     let w' := snd (renderFunction timestamp xrFrame w) in
     currentFrame (manager w') = xrFrame /\
     currentTimestamp (manager w') = timestamp /\
     match xrFrame with
     | None =>
         trace w' = trace w /\
         inXRFrameLoop (manager w') = inXRFrameLoop (manager w) /\
         engine (manager w') = Some e
     | Some frame =>
         inXRFrameLoop (manager w') = false /\
         engine (manager w') = Some (set_framebufferDimensionsObject None e) /\
         exists seen,
           trace w' =
             trace w ++
             [(NotifyFrame (onXRFrameObservable (manager w)) frame, seen);
              (EngineRenderLoop, seen)] /\
           inXRFrameLoop seen = true /\
           inXRSession seen = true /\
           currentFrame seen = Some frame /\
           currentTimestamp seen = timestamp /\
           engine seen =
             Some (set_framebufferDimensionsObject
                     (match _baseLayerRTTProvider (manager w) with
                      | Some p => getFramebufferDimensions p
                      | None => None
                      end) e)
     end).
Proof.
  fields w. split.
  - intros [-> | ->]; unfold renderFunction; run; cbn;
      [reflexivity | destruct inXRSession0; reflexivity].
  - intros e -> ->. cbv zeta. unfold renderFunction. run. cbn.
    destruct xrFrame as [frame |]; cbn.
    + repeat split. eexists. rewrite <- app_assoc. cbn. repeat split.
    + repeat split.
Qed.

Lemma renderFunction_tick_witness :
  renderFunction one (Some {| frame_id := 1 |})
    (Scenario.freshWorld (Some (Scenario.browserXR Scenario.sessionFloor)))
  = (Fulfilled tt,
     Scenario.freshWorld (Some (Scenario.browserXR Scenario.sessionFloor))) /\
  inXRFrameLoop
    (manager (snd (renderFunction one (Some {| frame_id := 1 |})
                     (Scenario.rendering (Scenario.browserXR Scenario.sessionFloor)))))
  = false.
Proof.
  split.
  - refine (proj1 (renderFunction_tick one _ _) _). left. reflexivity.
  - refine (proj1 (proj2 (proj2 (proj2 (renderFunction_tick one
              (Some {| frame_id := 1 |})
              (Scenario.rendering (Scenario.browserXR Scenario.sessionFloor)))
              Scenario.engine0 _ _))));
      vm_compute; reflexivity.
Defined.

(** X9.  [_setBaseLayerWrapper] disposes the provider the manager
    holds, if any, while the old wrapper is still in place, and before it
    installs the new wrapper and that wrapper's provider; with [null] for
    a wrapper the manager is left without a provider. *)
Theorem setBaseLayerWrapper_disposes_first
    (baseLayerWrapper : option WebXRLayerWrapper) (w : World) :
  let w' := snd (_setBaseLayerWrapper baseLayerWrapper w) in
  fst (_setBaseLayerWrapper baseLayerWrapper w) = Fulfilled tt /\
  trace w' =
    trace w ++
    match _baseLayerRTTProvider (manager w) with
    | Some p => [(ProviderDispose p, manager w)]
    | None => []
    end /\
  _baseLayerWrapper (manager w') = baseLayerWrapper /\
  _baseLayerRTTProvider (manager w') =
    match baseLayerWrapper with
    | Some wr => createRenderTargetTextureProvider wr
    | None => None
    end.
Proof.
  fields w. cbv zeta. unfold _setBaseLayerWrapper. run. cbn.
  destruct _baseLayerRTTProvider0; cbn; rewrite ?app_nil_r; repeat split.
Qed.

(** X10.  [updateRenderState] stores the state and commits it to the
    session last.  With a base layer it first replaces the wrapper, by a
    native-backed one exactly when the host is native, disposing the old
    provider; without a base layer wrapper and provider stay as they
    are and nothing is disposed. *)
Theorem updateRenderState_selects_wrapper
    (state : XRRenderStateInit) (w : World)
    (s : XRSession) (nav : Navigator) (sys : XRSystem) :
  session (manager w) = Some s ->
  _xrNavigator (manager w) = Some nav ->
  xr nav = Some sys ->
  let w' := snd (updateRenderState state w) in
  fst (updateRenderState state w) = Fulfilled tt /\
  _renderState (manager w') = Some state /\
  match baseLayer state with
  | Some l =>
      _baseLayerWrapper (manager w') =
        Some (if nativeHost (manager w)
              then NativeXRLayerWrapper l else WebXRWebGLLayerWrapper l) /\
      events (trace w') =
        events (trace w)
        ++ match _baseLayerRTTProvider (manager w) with
           | Some p => [ProviderDispose p]
           | None => []
           end
        ++ [SessionUpdateRenderState s state]
  | None =>
      _baseLayerWrapper (manager w') = _baseLayerWrapper (manager w) /\
      _baseLayerRTTProvider (manager w') = _baseLayerRTTProvider (manager w) /\
      events (trace w') = events (trace w) ++ [SessionUpdateRenderState s state]
  end.
Proof.
  fields w. intros -> -> Hxr. destruct nav as [x]; cbn in Hxr; subst x.
  destruct state as [[l |] near far]; destruct sys as [[[|] |] ? ? ?];
    cbv zeta; unfold updateRenderState, _setBaseLayerWrapper, isNative, nativeHost;
    run; cbn;
    try (destruct _baseLayerRTTProvider0; cbn);
    unfold events; rewrite ?map_app; cbn; rewrite <- ?app_assoc; cbn;
    repeat split.
Qed.

Lemma updateRenderState_selects_wrapper_witness :
  option_map variant
    (_baseLayerWrapper (manager (Scenario.rendering (Scenario.nativeXR Scenario.sessionFloor))))
    = Some NativeBacked /\
  option_map variant
    (_baseLayerWrapper (manager (Scenario.rendering (Scenario.browserXR Scenario.sessionFloor))))
    = Some BrowserGLBacked.
Proof.
  split.
  - pose proof (updateRenderState_selects_wrapper
                  {| baseLayer := Some Scenario.layer0; depthNear := None; depthFar := None |}
                  (Scenario.inSession (Scenario.nativeXR Scenario.sessionFloor))
                  Scenario.sessionFloor
                  {| xr := Some (Scenario.nativeXR Scenario.sessionFloor) |}
                  (Scenario.nativeXR Scenario.sessionFloor)
                  eq_refl eq_refl eq_refl) as (_ & _ & H & _).
    unfold Scenario.rendering. rewrite H. reflexivity.
  - pose proof (updateRenderState_selects_wrapper
                  {| baseLayer := Some Scenario.layer0; depthNear := None; depthFar := None |}
                  (Scenario.inSession (Scenario.browserXR Scenario.sessionFloor))
                  Scenario.sessionFloor
                  {| xr := Some (Scenario.browserXR Scenario.sessionFloor) |}
                  (Scenario.browserXR Scenario.sessionFloor)
                  eq_refl eq_refl eq_refl) as (_ & _ & H & _).
    unfold Scenario.rendering. rewrite H. reflexivity.
Defined.

(** X11.  The end handler turns the in-session flag off before it
    notifies the session-ended subscribers, and notifies them before it
    touches the engine; it then unsets the engine's framebuffer
    dimensions, restores the default framebuffer, removes the XR frame
    requester and restarts the engine's render loop. *)
Theorem onSessionEnd_restores_engine
    (w : World) (nav : Navigator) (sys : XRSystem) (e : Engine) :
  _xrNavigator (manager w) = Some nav ->
  xr nav = Some sys ->
  engine (manager w) = Some e ->
  let w' := snd (onSessionEnd w) in
  inXRSession (manager w') = false /\
  engine (manager w') =
    Some {| framebufferDimensionsObject := None;
            customAnimationFrameRequester := false;
            getRenderingCanvas := getRenderingCanvas e |} /\
  exists rest,
    trace w' =
      trace w ++
      (NotifySessionEnded (onXRSessionEnded (manager w)),
       set_inXRSession false (manager w)) :: rest /\
    firstn 2 (events rest) = [EngineRestoreDefaultFramebuffer; EngineRenderLoop].
Proof.
  fields w. intros -> Hxr ->. destruct nav as [x]; cbn in Hxr; subst x.
  destruct sys as [[[|] |] ? ? ?];
    cbv zeta; unfold onSessionEnd, isNative; run; cbn;
    destruct _baseLayerRTTProvider0; cbn;
    (split; [reflexivity |]); (split; [reflexivity |]);
    rewrite <- ?app_assoc; cbn; eexists; (split; [reflexivity |]); reflexivity.
Qed.

Lemma onSessionEnd_restores_engine_witness :
  let w := snd (runXRRenderLoop true
                  (Scenario.rendering (Scenario.browserXR Scenario.sessionFloor))) in
  option_map customAnimationFrameRequester (engine (manager w)) = Some true /\
  option_map customAnimationFrameRequester (engine (manager (snd (onSessionEnd w))))
    = Some false.
Proof.
  split; [vm_compute; reflexivity |].
  pose proof (onSessionEnd_restores_engine
                (snd (runXRRenderLoop true
                        (Scenario.rendering (Scenario.browserXR Scenario.sessionFloor))))
                {| xr := Some (Scenario.browserXR Scenario.sessionFloor) |}
                (Scenario.browserXR Scenario.sessionFloor)
                (set_customAnimationFrameRequester true Scenario.engine0)
                eq_refl eq_refl eq_refl) as (_ & H & _).
  rewrite H. reflexivity.
Defined.

End SpacesAndFrames.

(* ================================================================== *)
(** * Further properties: the one-shot end listener *)
(* ================================================================== *)

Section EndListener.
Import SessionManager.

Lemma listening_assign l f : preserves (listening l) (assign f).
Proof. intros w H. exact H. Qed.

Lemma listening_emit l e : preserves (listening l) (emit e).
Proof. intros w H. exact H. Qed.

Lemma listening_isNative l : preserves (listening l) isNative.
Proof.
  unfold isNative.
  repeat first [ apply preserves_bind; [| intros ?] | apply preserves_this
               | apply preserves_deref | apply preserves_ret ].
Qed.

(** The end handler leaves the pending listeners alone. *)
Lemma listening_onSessionEnd l : preserves (listening l) onSessionEnd.
Proof.
  unfold onSessionEnd, assign_engine.
  repeat first [ apply preserves_bind; [| intros ?] | apply preserves_this
               | apply preserves_when | apply preserves_whenSome; intros ?
               | apply listening_assign | apply listening_emit
               | apply preserves_deref | apply preserves_ret ].
Qed.

Lemma listening_runEndListeners l pending id :
  preserves (listening l) (runEndListeners pending id).
Proof.
  induction pending as [| x rest IH]; cbn [runEndListeners].
  - apply preserves_ret.
  - apply preserves_bind; [| intros _; exact IH].
    apply preserves_when, preserves_not_awaited, listening_onSessionEnd.
Qed.

Lemma runEndListeners_returns pending id w :
  fst (runEndListeners pending id w) = Fulfilled tt.
Proof.
  revert w. induction pending as [| x rest IH]; intros w; [reflexivity |].
  cbn [runEndListeners]. unfold bind, when.
  destruct (Nat.eqb x id); cbn; apply IH.
Qed.

(** Listeners of other sessions are not run. *)
Lemma runEndListeners_absent pending id w :
  ~ In id pending -> runEndListeners pending id w = (Fulfilled tt, w).
Proof.
  induction pending as [| x rest IH]; intros Hn; [reflexivity |].
  cbn [runEndListeners]. unfold bind, when.
  destruct (Nat.eqb_spec x id) as [-> | Hx].
  - exfalso. apply Hn. left. reflexivity.
  - cbn. apply IH. intros H. apply Hn. right. exact H.
Qed.

Lemma filter_others_absent id pending :
  ~ In id (filter (fun l => negb (Nat.eqb l id)) pending).
Proof.
  rewrite filter_In. intros [_ H]. rewrite Nat.eqb_refl in H. discriminate.
Qed.

Lemma filter_others_id id pending :
  ~ In id pending -> filter (fun l => negb (Nat.eqb l id)) pending = pending.
Proof.
  induction pending as [| x rest IH]; intros Hn; [reflexivity |].
  cbn [filter]. destruct (Nat.eqb_spec x id) as [-> | Hx].
  - exfalso. apply Hn. left. reflexivity.
  - cbn. f_equal. apply IH. intros H. apply Hn. right. exact H.
Qed.

Lemma sessionEnds_listeners s w :
  endListeners (snd (sessionEnds s w))
    = filter (fun l => negb (Nat.eqb l (session_id s))) (endListeners w).
Proof.
  unfold sessionEnds. run.
  apply (listening_runEndListeners _ (endListeners w) (session_id s)). reflexivity.
Qed.

(** X12.  The end listener is one-shot: when the device has fired
    ["end"] on a session, the listeners pending on that session are gone,
    those on other sessions stay, and a second ["end"] on the session has
    no effect at all; nor has an ["end"] on a session nobody listens to. *)
Theorem sessionEnds_one_shot (s : XRSession) (w : World) :
  fst (sessionEnds s w) = Fulfilled tt /\
  endListeners (snd (sessionEnds s w))
    = filter (fun l => negb (Nat.eqb l (session_id s))) (endListeners w) /\
  sessionEnds s (snd (sessionEnds s w)) = (Fulfilled tt, snd (sessionEnds s w)) /\
  (~ In (session_id s) (endListeners w) -> sessionEnds s w = (Fulfilled tt, w)).
Proof.
  assert (Hquiet : forall w0, ~ In (session_id s) (endListeners w0) ->
                              sessionEnds s w0 = (Fulfilled tt, w0)).
  { intros w0 Hn. unfold sessionEnds. run.
    rewrite (filter_others_id _ _ Hn), (runEndListeners_absent _ _ _ Hn).
    destruct w0; reflexivity. }
  split; [| split; [| split]].
  - unfold sessionEnds. run. apply runEndListeners_returns.
  - apply sessionEnds_listeners.
  - apply Hquiet. rewrite sessionEnds_listeners. apply filter_others_absent.
  - apply Hquiet.
Qed.

Lemma sessionEnds_one_shot_witness :
  sessionEnds Scenario.sessionFloor
    (Scenario.freshWorld (Some (Scenario.browserXR Scenario.sessionFloor)))
  = (Fulfilled tt,
     Scenario.freshWorld (Some (Scenario.browserXR Scenario.sessionFloor))).
Proof.
  refine (proj2 (proj2 (proj2 (sessionEnds_one_shot Scenario.sessionFloor _))) _).
  intros [].
Defined.




End EndListener.

(* ================================================================== *)
(** * Further properties: negotiation, foveation, probing, render target *)
(* ================================================================== *)

Section Negotiation.
Import SessionManager.

(** X20.  [setReferenceSpaceTypeAsync] assigns nothing unless it
    succeeds: when it rejects or throws, the current, base and viewer
    reference spaces and every other field are as before, and nothing was
    announced to the reference-space-changed subscribers. *)
Theorem setReferenceSpaceTypeAsync_all_or_nothing
    (ty : XRReferenceSpaceType) (w : World) :
  (forall result, fst (setReferenceSpaceTypeAsync ty w) <> Fulfilled result) ->
  manager (snd (setReferenceSpaceTypeAsync ty w)) = manager w /\
  lastNotifiedSpace (trace (snd (setReferenceSpaceTypeAsync ty w))) None
    = lastNotifiedSpace (trace w) None.
Proof.
  intros Hfail.
  destruct (session (manager w)) as [s |] eqn:Hs.
  - revert Hfail.
    rewrite (setReferenceSpaceTypeAsync_run ty w s Hs),
            (negotiateReferenceSpace_run ty w s Hs).
    cbv zeta.
    assert (Hlog : forall es,
               (forall e, In e es ->
                          forall to sp, e <> NotifyReferenceSpaceChanged to sp) ->
               lastNotifiedSpace (trace (logged es w)) None
                 = lastNotifiedSpace (trace w) None).
    { intros es. unfold logged. cbn [trace with_trace].
      induction es as [| e es IH] using rev_ind; intros Hes;
        [cbn; rewrite app_nil_r; reflexivity |].
      rewrite map_app, app_assoc. cbn [map]. rewrite lastNotifiedSpace_snoc.
      assert (He : forall to sp, e <> NotifyReferenceSpaceChanged to sp)
        by (apply Hes, in_or_app; right; left; reflexivity).
      destruct e; try (apply IH; intros e' He'; apply Hes, in_or_app; left; exact He').
      exfalso. eapply He. reflexivity. }
    assert (Hsafe : forall es,
               Forall (fun e => match e with
                                | NotifyReferenceSpaceChanged _ _ => False
                                | _ => True
                                end) es ->
               lastNotifiedSpace (trace (logged es w)) None
                 = lastNotifiedSpace (trace w) None).
    { intros es Hes. apply Hlog. intros e He to sp ->.
      rewrite Forall_forall in Hes. exact (Hes _ He). }
    destruct (requestReferenceSpace s _ ty) as [space | reason].
    + cbn [fst snd]. rewrite requestCount_logged.
      cbn [map requestedTypes flat_map fst app List.length].
      destruct (requestReferenceSpace s _ Viewer) as [v | r]; intros Hfail.
      * exfalso. eapply Hfail. reflexivity.
      * cbn [snd]. rewrite logged_logged. split; [reflexivity |].
        apply Hsafe. repeat constructor.
    + destruct (requestReferenceSpace s (S _) Viewer) as [v | reason'].
      * cbn [fst snd]. rewrite requestCount_logged.
        cbn [map requestedTypes flat_map fst app List.length fallbackEvents].
        destruct (requestReferenceSpace s _ Viewer) as [v' | r]; intros Hfail.
        -- exfalso. eapply Hfail. reflexivity.
        -- cbn [snd]. rewrite logged_logged. split; [reflexivity |].
           apply Hsafe. repeat constructor.
      * intros _. cbn [snd]. split; [reflexivity |].
        apply Hsafe. repeat constructor.
  - unfold setReferenceSpaceTypeAsync, negotiateReferenceSpace,
      session_requestReferenceSpace. run. rewrite Hs. split; reflexivity.
Qed.

Lemma setReferenceSpaceTypeAsync_all_or_nothing_witness :
  manager (snd (setReferenceSpaceTypeAsync LocalFloor
                  (Scenario.inSession (Scenario.browserXR Scenario.sessionNoSpace))))
  = manager (Scenario.inSession (Scenario.browserXR Scenario.sessionNoSpace)).
Proof.
  refine (proj1 (setReferenceSpaceTypeAsync_all_or_nothing LocalFloor
                   (Scenario.inSession (Scenario.browserXR Scenario.sessionNoSpace)) _)).
  intros result. vm_compute. discriminate.
Defined.

(** X21.  When the device grants the space asked for, no fallback takes
    place: the space granted is stored and returned as it is, without
    height compensation, nothing is logged, and the device has been asked
    twice, for the type and then for ["viewer"]. *)
Theorem setReferenceSpaceTypeAsync_direct
    (ty : XRReferenceSpaceType) (w : World) (s : XRSession)
    (space viewerSpace : XRReferenceSpace) :
  session (manager w) = Some s ->
  requestReferenceSpace s (List.length (requestedTypes (trace w))) ty
    = Resolves space ->
  requestReferenceSpace s (S (List.length (requestedTypes (trace w)))) Viewer
    = Resolves viewerSpace ->
  let w' := snd (setReferenceSpaceTypeAsync ty w) in
  fst (setReferenceSpaceTypeAsync ty w) = Fulfilled (Some space) /\
  manager w' = finalized space viewerSpace (manager w) /\
  events (trace w') =
    events (trace w)
    ++ [RequestReferenceSpace s ty; RequestReferenceSpace s Viewer;
        NotifyReferenceSpaceChanged (onXRReferenceSpaceChanged (manager w))
          (Some space)].
Proof.
  intros Hs Hty Hv. cbv zeta.
  rewrite (setReferenceSpaceTypeAsync_run ty w s Hs),
          (negotiateReferenceSpace_run ty w s Hs).
  cbv zeta. rewrite Hty, requestCount_logged.
  cbn [map requestedTypes flat_map fst app List.length].
  rewrite Nat.add_1_r, Hv. cbn [fst snd manager trace with_trace with_manager logged].
  repeat split. unfold events. rewrite !map_app, <- app_assoc. reflexivity.
Qed.

Lemma setReferenceSpaceTypeAsync_direct_witness :
  fst (setReferenceSpaceTypeAsync LocalFloor
         (Scenario.inSession (Scenario.browserXR Scenario.sessionFloor)))
  = Fulfilled (Some (DeviceSpace LocalFloor 0)).
Proof.
  refine (proj1 (setReferenceSpaceTypeAsync_direct LocalFloor
                   (Scenario.inSession (Scenario.browserXR Scenario.sessionFloor))
                   Scenario.sessionFloor (DeviceSpace LocalFloor 0)
                   (DeviceSpace Viewer 1) _ _ _));
    vm_compute; reflexivity.
Defined.

Lemma Qcleb_total (p q : Qc) : Qcleb p q = false -> Qcleb q p = true.
Proof. intros H. apply Qcleb_le, Qclt_le_weak, Qcleb_gt, H. Qed.

Lemma truthy_positive (q : Qc) :
  Qcleb (Q2Qc 0) q = true -> truthy (Finite q) = negb (Qcleb q (Q2Qc 0)).
Proof.
  intros H0. unfold truthy.
  destruct (q ?= Q2Qc 0)%Qc eqn:E.
  - apply Qceq_alt in E. subst q. reflexivity.
  - exfalso. apply Qclt_alt in E. apply Qcleb_le in H0.
    exact (Qcle_not_lt _ _ H0 E).
  - unfold Qcleb. rewrite E. reflexivity.
Qed.

(** X22.  On a wrapper with the capability, reading the fixed
    foveation back after a write gives [null] when what was written is
    zero or less, [NaN], [null] or [undefined], and otherwise the number
    written, capped at 1.  A wrapper without the capability ignores the
    write, and the read gives [null] as long as the wrapper is at the
    unsupported sentinel.  Without a layer wrapper the write changes
    nothing and the read gives [null]. *)
Theorem fixedFoveation_round_trip (w : World) (value : option number) :
  let w' := snd (fixedFoveation_set value w) in
  (forall wr, _baseLayerWrapper (manager w) = Some wr ->
     wrapper_isFixedFoveationSupported wr = true ->
     fst (fixedFoveation_get w') =
     Fulfilled match value with
               | Some NaN | None => None
               | Some v => if number_leb v zero then None else Some (real_min one v)
               end) /\
  (forall wr, _baseLayerWrapper (manager w) = Some wr ->
     wrapper_isFixedFoveationSupported wr = false ->
     w' = w /\
     (wrapper_fixedFoveation wr = None ->
      fst (fixedFoveation_get w') = Fulfilled None)) /\
  (_baseLayerWrapper (manager w) = None ->
     w' = w /\ fst (fixedFoveation_get w') = Fulfilled None).
Proof.
  cbv zeta. rewrite fixedFoveation_set_run, clamp_value. split; [| split].
  - intros wr -> Hs. cbn [snd]. rewrite fixedFoveation_get_run.
    cbn [fst]. unfold withWrapper, write_fixedFoveation. rewrite Hs.
    cbn [manager with_manager _baseLayerWrapper set_baseLayerWrapper
         wrapper_fixedFoveation].
    destruct value as [v |]; [| reflexivity].
    destruct v as [q | | |]; try reflexivity.
    cbn [clampedLevel].
    unfold real_max, real_min, number_leb, zero, one, or_null.
    destruct (Qcleb (Q2Qc 1) q) eqn:E1.
    + rewrite Qcleb_0_1.
      assert (E0 : Qcleb q (Q2Qc 0) = false).
      { destruct (Qcleb q (Q2Qc 0)) eqn:E; [| reflexivity]. exfalso.
        apply Qcleb_le in E, E1.
        pose proof (Qcle_trans _ _ _ E1 E) as H. apply Qcleb_le in H. discriminate. }
      rewrite E0. reflexivity.
    + destruct (Qcleb (Q2Qc 0) q) eqn:E0.
      * rewrite (truthy_positive q E0). destruct (Qcleb q (Q2Qc 0)); reflexivity.
      * rewrite (Qcleb_total _ _ E0). reflexivity.
  - intros wr Hw Hs. rewrite Hw. cbn [snd].
    unfold write_fixedFoveation. rewrite Hs.
    assert (E : withWrapper (Some wr) w = w).
    { destruct w as [m gnav lay subs pending t]; destruct m.
      cbn in Hw. subst. reflexivity. }
    rewrite E. split; [reflexivity |].
    intros Hn. rewrite fixedFoveation_get_run, Hw, Hn. reflexivity.
  - intros H. rewrite H. cbn [snd]. split; [reflexivity |].
    rewrite fixedFoveation_get_run, H. reflexivity.
Qed.

Lemma fixedFoveation_round_trip_witness :
  (let w := Scenario.rendering (Scenario.browserXR Scenario.sessionFloor) in
   fst (fixedFoveation_get (snd (fixedFoveation_set (Some Scenario.three_halves) w)))
     = Fulfilled (Some one) /\
   fst (fixedFoveation_get (snd (fixedFoveation_set (Some Scenario.two_fifths) w)))
     = Fulfilled (Some Scenario.two_fifths) /\
   fst (fixedFoveation_get (snd (fixedFoveation_set (Some Scenario.minus_half) w)))
     = Fulfilled None) /\
  (let w := Scenario.renderingPlain (Scenario.browserXR Scenario.sessionFloor) in
   fst (fixedFoveation_get (snd (fixedFoveation_set (Some Scenario.two_fifths) w)))
     = Fulfilled None).
Proof.
  split; [split; [| split] |].
  - refine (proj1 (fixedFoveation_round_trip
                     (Scenario.rendering (Scenario.browserXR Scenario.sessionFloor))
                     (Some Scenario.three_halves))
              (WebXRWebGLLayerWrapper Scenario.layer0) _ _);
      vm_compute; reflexivity.
  - refine (proj1 (fixedFoveation_round_trip
                     (Scenario.rendering (Scenario.browserXR Scenario.sessionFloor))
                     (Some Scenario.two_fifths))
              (WebXRWebGLLayerWrapper Scenario.layer0) _ _);
      vm_compute; reflexivity.
  - refine (proj1 (fixedFoveation_round_trip
                     (Scenario.rendering (Scenario.browserXR Scenario.sessionFloor))
                     (Some Scenario.minus_half))
              (WebXRWebGLLayerWrapper Scenario.layer0) _ _);
      vm_compute; reflexivity.
  - refine (proj2 (proj1 (proj2 (fixedFoveation_round_trip
                     (Scenario.renderingPlain (Scenario.browserXR Scenario.sessionFloor))
                     (Some Scenario.two_fifths)))
              (WebXRWebGLLayerWrapper Scenario.layerPlain) _ _) _);
      vm_compute; reflexivity.
Defined.

(** X23.  [getWebXRRenderTarget] on a native host builds the native
    target whatever the options, and leaves the options alone; elsewhere
    it builds a managed canvas on the canvas the options name, and on the
    engine's rendering canvas when they name none, and it writes that
    canvas into the options object it was given (or into the defaults it
    made), which is the object the canvas keeps.  The world changes only
    by what the constructor of the target does with the manager it is
    handed: its subscriptions are added to the manager's observables;
    nothing is logged or asked of the device. *)
Theorem getWebXRRenderTarget_choice
    (options : option WebXRManagedOutputCanvasOptions) (w : World)
    (nav : Navigator) (sys : XRSystem) (e : Engine) :
  _xrNavigator (manager w) = Some nav ->
  xr nav = Some sys ->
  engine (manager w) = Some e ->
  let written :=
    {| canvasElement :=
         match options with
         | Some {| canvasElement := Some c |} => Some c
         | _ => getRenderingCanvas e
         end |} in
  let target :=
    match native sys with
    | Some true => NativeXRRenderTarget
    | _ => WebXRManagedOutputCanvas written
    end in
  getWebXRRenderTarget options w =
  (Fulfilled
     (target, match native sys with Some true => options | _ => Some written end),
   with_manager (subscribeAll (constructorSubscriptions w target) (manager w)) w).
Proof.
  fields w. intros -> Hxr ->. destruct nav as [x]; cbn in Hxr; subst x.
  destruct sys as [[[|] |] ? ? ?], options as [[[c |]] |];
    unfold getWebXRRenderTarget; run; reflexivity.
Qed.

Lemma getWebXRRenderTarget_choice_witness :
  (let r := getWebXRRenderTarget (Some {| canvasElement := None |})
              (Scenario.inSession (Scenario.browserXR Scenario.sessionFloor)) in
   fst r = Fulfilled
             (WebXRManagedOutputCanvas {| canvasElement := Some Scenario.canvas0 |},
              Some {| canvasElement := Some Scenario.canvas0 |}) /\
   onXRSessionInit (manager (snd r)) = [51] /\
   onXRSessionEnded (manager (snd r)) = [52]) /\
  (let r := getWebXRRenderTarget (Some {| canvasElement := Some 9 |})
              (Scenario.inSession (Scenario.nativeXR Scenario.sessionFloor)) in
   fst r = Fulfilled (NativeXRRenderTarget, Some {| canvasElement := Some 9 |}) /\
   snd r = Scenario.inSession (Scenario.nativeXR Scenario.sessionFloor)).
Proof.
  split.
  - rewrite (getWebXRRenderTarget_choice (Some {| canvasElement := None |})
               (Scenario.inSession (Scenario.browserXR Scenario.sessionFloor))
               {| xr := Some (Scenario.browserXR Scenario.sessionFloor) |}
               (Scenario.browserXR Scenario.sessionFloor) Scenario.engine0
               eq_refl eq_refl eq_refl).
    vm_compute. repeat split.
  - rewrite (getWebXRRenderTarget_choice (Some {| canvasElement := Some 9 |})
               (Scenario.inSession (Scenario.nativeXR Scenario.sessionFloor))
               {| xr := Some (Scenario.nativeXR Scenario.sessionFloor) |}
               (Scenario.nativeXR Scenario.sessionFloor) Scenario.engine0
               eq_refl eq_refl eq_refl).
    vm_compute. split; reflexivity.
Defined.

(** X24.  The probe calls [isSessionSupported] when the platform has
    it and [supportsSession] only when it has not; a probe promise that
    resolves without a value counts as support; a rejection is logged as
    a warning.  In no case does the probe touch the manager. *)
Theorem isSessionSupportedAsync_probe
    (mode : XRSessionMode) (w : World) (sys : XRSystem) :
  xr (navigator w) = Some sys ->
  let w' := snd (isSessionSupportedAsync mode w) in
  manager w' = manager w /\
  (forall f, isSessionSupported sys = Some f ->
     fst (isSessionSupportedAsync mode w) =
       Fulfilled match f mode with
                 | Resolves (Some b) => b
                 | Resolves None => true
                 | Rejects _ => false
                 end /\
     events (trace w') =
       events (trace w) ++ IsSessionSupportedCall mode ::
       match f mode with
       | Rejects reason => [Log LogWarn reason]
       | Resolves _ => []
       end) /\
  (forall g, isSessionSupported sys = None -> supportsSession sys = Some g ->
     fst (isSessionSupportedAsync mode w) =
       Fulfilled match g mode with
                 | Resolves (Some b) => b
                 | Resolves None => true
                 | Rejects _ => false
                 end).
Proof.
  fields w. cbn [navigator]. intros Hxr. cbv zeta.
  unfold isSessionSupportedAsync, IsSessionSupportedAsync. run. rewrite Hxr.
  split; [| split].
  - destruct (isSessionSupported sys) as [f |];
      [| destruct (supportsSession sys) as [f |]]; try reflexivity;
      destruct (f mode) as [[b |] | r]; reflexivity.
  - intros f ->. destruct (f mode) as [[b |] | r]; cbn;
      unfold events; rewrite ?map_app; cbn; rewrite <- ?app_assoc;
      split; reflexivity.
  - intros g -> ->. destruct (g mode) as [[b |] | r]; reflexivity.
Qed.

Lemma isSessionSupportedAsync_probe_witness :
  fst (isSessionSupportedAsync ImmersiveVR (Scenario.freshWorld (Some Further.legacyXR)))
    = Fulfilled true /\
  fst (isSessionSupportedAsync ImmersiveVR
         (Scenario.freshWorld (Some Further.bothProbesXR)))
    = Fulfilled false.
Proof.
  split.
  - refine (proj2 (proj2 (isSessionSupportedAsync_probe ImmersiveVR
              (Scenario.freshWorld (Some Further.legacyXR)) Further.legacyXR _))
              (fun _ => Resolves None) _ _); reflexivity.
  - refine (proj1 (proj1 (proj2 (isSessionSupportedAsync_probe ImmersiveVR
              (Scenario.freshWorld (Some Further.bothProbesXR)) Further.bothProbesXR _))
              (fun _ => Resolves (Some false)) _)); reflexivity.
Defined.

End Negotiation.

(* ================================================================== *)
(** * Further properties: moving the session to another scene *)
(* ================================================================== *)

Section MovingTheSession.
Import SessionManager.





End MovingTheSession.

(* ================================================================== *)
(** * Further properties: the default experience *)
(* ================================================================== *)

Section Experience.
Import DefaultExperience.

(** Splits an experience world into the fields of its experience. *)
Ltac xfields xw :=
  let e := fresh "e" in
  let o := fresh "o" in
  destruct xw as [e sw cs]; destruct e as [o ? ? ? ? ? ? ? ?]; destruct o;
  cbn [experience sessionWorld calls options DefaultExperience.persistent
       baseExperience enterExitUI input pointerSelection renderTarget teleportation
       nearInteraction disablePointerSelection disableTeleportation
       disableNearInteraction ignoreNativeCameraTransformation useStablePlugins
       renderingGroupId] in *.

Ltac xrun :=
  unfold self, update, call, onSession, enableFeature;
  unfold bind, in_promise, not_awaited, when, whenSome, deref, ret, throw;
  cbn [fst snd experience sessionWorld calls options DefaultExperience.persistent
       baseExperience enterExitUI input pointerSelection renderTarget teleportation
       nearInteraction disablePointerSelection disableTeleportation
       disableNearInteraction ignoreNativeCameraTransformation useStablePlugins
       renderingGroupId].



(** X17.  Scene initialization always builds a new input.  With
    pointer selection disabled it enables neither pointer selection nor
    teleportation, whatever the teleportation option says.  With both
    enabled it enables pointer selection, then teleportation, then wires
    teleportation to pointer selection; but on a persistent experience it
    throws at that point, with pointer selection already enabled.  The
    tier of every feature is the one the options select. *)
Theorem initializeScene_features (xw : ExperienceWorld) (b : WebXRExperienceHelper) :
  baseExperience (experience xw) = Some b ->
  let o := options (experience xw) in
  let xw' := snd (_initializeScene xw) in
  let camera := if ignoreNativeCameraTransformation o
                then [CameraCompensateOnFirstFrame false] else [] in
  let near := if disableNearInteraction o
              then [] else [EnableFeature NearInteractionName (Further.tierOf o)] in
  input (experience xw') = Some {| controller_renderingGroupId := renderingGroupId o |} /\
  (disablePointerSelection o = true ->
     fst (_initializeScene xw) = Fulfilled tt /\
     pointerSelection (experience xw') = pointerSelection (experience xw) /\
     teleportation (experience xw') = teleportation (experience xw) /\
     calls xw' = calls xw ++ camera ++ near) /\
  (disablePointerSelection o = false -> disableTeleportation o = false ->
     pointerSelection (experience xw') = Some (PointerSelectionName, Further.tierOf o) /\
     if DefaultExperience.persistent (experience xw)
     then fst (_initializeScene xw) = Thrown teleport_not_suitable /\
          teleportation (experience xw') = teleportation (experience xw) /\
          calls xw' =
            calls xw ++ camera ++ [EnableFeature PointerSelectionName (Further.tierOf o)]
     else fst (_initializeScene xw) = Fulfilled tt /\
          teleportation (experience xw') = Some (TeleportationName, Further.tierOf o) /\
          calls xw' =
            calls xw ++ camera
            ++ [EnableFeature PointerSelectionName (Further.tierOf o);
                EnableFeature TeleportationName (Further.tierOf o);
                SetSelectionFeature]
            ++ near).
Proof.
  xfields xw. intros ->. cbv zeta. unfold _initializeScene, Further.tierOf. xrun.
  split; [| split].
  - destruct ignoreNativeCameraTransformation0, disablePointerSelection0,
      disableTeleportation0, persistent0, disableNearInteraction0; reflexivity.
  - intros ->.
    destruct ignoreNativeCameraTransformation0, disableNearInteraction0; cbn;
      rewrite ?app_nil_r, <- ?app_assoc; repeat split.
  - intros -> ->.
    destruct ignoreNativeCameraTransformation0, persistent0, disableNearInteraction0;
      cbn; rewrite ?app_nil_r, <- ?app_assoc; repeat split.
Qed.

Lemma initializeScene_features_witness :
  fst (_initializeScene Scenario.singleSceneExperience) = Fulfilled tt /\
  calls (snd (_initializeScene Scenario.singleSceneExperience))
    = [EnableFeature PointerSelectionName Latest;
       EnableFeature TeleportationName Latest;
       SetSelectionFeature;
       EnableFeature NearInteractionName Latest] /\
  fst (_initializeScene (Further.persistentExperience Scenario.options0))
    = Thrown teleport_not_suitable.
Proof.
  pose proof (proj2 (proj2 (initializeScene_features Scenario.singleSceneExperience
                              Scenario.helper0 eq_refl)) eq_refl eq_refl) as [_ H1].
  pose proof (proj2 (proj2 (initializeScene_features
                              (Further.persistentExperience Scenario.options0)
                              Scenario.helper0 eq_refl)) eq_refl eq_refl) as [_ H2].
  cbn in H1, H2. destruct H1 as (F1 & _ & C1). destruct H2 as (F2 & _).
  split; [exact F1 |]. split; [exact C1 | exact F2].
Defined.





End Experience.
